(** * FinAI Contest 2025, Task 2: the fine-tuning walk-through notebook

    A shallow embedding of the code cells of
    [Task_2_FinGPT_Agents_Real_Life/task_2_finetune.ipynb] that carry
    logic of their own:

    - cell 5, the splitter: read [data/finai_raw.jsonl], shuffle the lines
      with seed 42, cut at [int(0.8 * n)], write the two partitions;
    - cell 7, the config merger: load [lora/finetune_configs.json], set one
      entry, dump the mapping back;
    - cell 9, the fine-tuning call: the configuration key handed to
      [finetune.py].

    A cell is a computation over a [World] (the files below the FinLoRA
    checkout, the text printed so far, and the state of the generator behind
    the [random] module) that ends normally or with a Python exception. *)

From Stdlib Require Import ZArith Lia String Ascii List Bool Permutation SpecFloat.
From stdpp Require Import gmap strings list fin_maps pretty.

Set Warnings "-register-all".

Open Scope string_scope.
Open Scope list_scope.

(** ** Exceptions *)

(** The exceptions the modelled statements can raise. *)
Inductive exn : Type :=
  | IndexError
  | FileNotFoundError
  | FileExistsError
  | NotADirectoryError
  | IsADirectoryError
  | OverflowError
  | ValueError
  | TypeError
  | JSONDecodeError.

Global Instance exn_eq_dec : EqDecision exn.
Proof. solve_decision. Defined.

(** ** Results *)

(** A pure computation that may raise. *)
Inductive result (A : Type) : Type :=
  | Ok (a : A)
  | Raise (e : exn).
Arguments Ok {A} a.
Arguments Raise {A} e.

Global Instance result_ret : MRet result := fun _ a => Ok a.
Global Instance result_bind : MBind result := fun _ _ f r =>
  match r with
  | Ok a => f a
  | Raise e => Raise e
  end.

(** ** Text *)

(** A Python [str] is a sequence of code points. The model keeps the code
    points below 256, one per [ascii]; the two line boundaries above that
    range (U+2028 and U+2029) are therefore outside the alphabet. Files hold
    decoded text: UTF-8 encoding and decoding are inverse on it. *)
Module Text.

Definition LF : ascii := "010"%char.
Definition CR : ascii := "013"%char.

(** The characters [str.splitlines] breaks a line at. *)
Definition is_linebreak (c : ascii) : bool :=
  match N_of_ascii c with
  | 10 | 11 | 12 | 13 | 28 | 29 | 30 | 133 => true
  | _ => false
  end%N.

(** [splitlines_from line s]: [line] is the text since the last boundary. *)
Fixpoint splitlines_from (line s : string) : list string :=
  match s with
  | EmptyString => match line with EmptyString => [] | _ => [line] end
  | String c s' =>
      if is_linebreak c then
        match s' with
        | String c' s'' =>
            if Ascii.eqb c CR && Ascii.eqb c' LF
            then line :: splitlines_from "" s''
            else line :: splitlines_from "" s'
        | EmptyString => line :: splitlines_from "" s'
        end
      else splitlines_from (line +:+ String c "") s'
  end.

(** [str.splitlines()], without the line ends. *)
Definition splitlines (s : string) : list string := splitlines_from "" s.

(** What a text-mode [read()] does with [newline=None]: every "\r\n" and
    every lone "\r" becomes "\n". *)
Fixpoint universal_newlines (s : string) : string :=
  match s with
  | EmptyString => EmptyString
  | String c s' =>
      if Ascii.eqb c CR then
        match s' with
        | String c' s'' =>
            if Ascii.eqb c' LF then String LF (universal_newlines s'')
            else String LF (universal_newlines s')
        | EmptyString => String LF (universal_newlines s')
        end
      else String c (universal_newlines s')
  end.

(** [sep.join(l)] *)
Fixpoint join (sep : string) (l : list string) : string :=
  match l with
  | [] => ""
  | [x] => x
  | x :: l' => x +:+ sep +:+ join sep l'
  end.

Definition newline : string := String LF "".

End Text.

(** ** Sequences *)

Module Seq.

(** The bound of a slice: a negative index counts from the end, and the
    result is clipped to [0 .. len]. *)
Definition clip (len : nat) (k : Z) : nat :=
  if (k <? 0)%Z then Z.to_nat (Z.max 0 (Z.of_nat len + k))
  else Nat.min (Z.to_nat k) len.

(** [x[:k]] *)
Definition slice_to {A} (x : list A) (k : Z) : list A :=
  take (clip (length x) k) x.

(** [x[k:]] *)
Definition slice_from {A} (x : list A) (k : Z) : list A :=
  drop (clip (length x) k) x.

(** [x[i], x[j] = x[j], x[i]] for non-negative indices: both items are
    read, then both are stored; an index outside the list raises. *)
Definition swap {A} (i j : nat) (x : list A) : result (list A) :=
  match x !! j, x !! i with
  | Some b, Some a => Ok (<[j := a]> (<[i := b]> x))
  | _, _ => Raise IndexError
  end.

End Seq.

(** ** The generator behind [random] *)

(** [random.seed] and [random.shuffle] act on one hidden generator. Its
    interface is what the splitter relies on: seeding replaces the state by
    a function of the seed alone, and [_randbelow(n)] returns an integer in
    [0, n) for positive [n]. [MT19937] below is the generator CPython ships. *)
Class Random : Type := {
  rng_state : Type;
  seed : Z -> rng_state;
  randbelow : nat -> rng_state -> nat * rng_state;
  randbelow_lt : forall n g, 0 < n -> fst (randbelow n g) < n
}.

(** CPython's generator: the Mersenne Twister of [_randommodule.c], seeded
    the way [random.seed(int)] seeds it, with [getrandbits] and the rejection
    loop of [Random._randbelow_with_getrandbits] on top. *)
Module MT19937.

Definition N : nat := 624.
Definition M : nat := 397.
Definition MATRIX_A : Z := 0x9908b0df.
Definition UPPER_MASK : Z := 0x80000000.
Definition LOWER_MASK : Z := 0x7fffffff.

(** Arithmetic on [uint32_t] wraps around. *)
Definition u32 (z : Z) : Z := (z mod 2 ^ 32)%Z.

Record state : Type := { mt : list Z; index : nat }.

Definition word (mt : list Z) (i : nat) : Z := default 0%Z (mt !! i).

(** [init_genrand]: [mt[i] = 1812433253 * (mt[i-1] ^ (mt[i-1] >> 30)) + i]. *)
Fixpoint init_fill (count : nat) (mti prev : Z) : list Z :=
  match count with
  | 0 => []
  | S count' =>
      let v := u32 (1812433253 * Z.lxor prev (Z.shiftr prev 30) + mti) in
      v :: init_fill count' (mti + 1)%Z v
  end.

Definition init_genrand (s : Z) : state :=
  {| mt := u32 s :: init_fill (N - 1) 1 (u32 s); index := N |}.

(** One step of the index pair of [init_by_array]: [i++], wrapping to 1
    with [mt[0] = mt[N-1]]. *)
Definition advance (mt : list Z) (i : nat) : list Z * nat :=
  if decide (N <= S i) then (<[0 := word mt (N - 1)]> mt, 1) else (mt, S i).

(** The first loop of [init_by_array], [k] iterations. *)
Fixpoint mix_key (k : nat) (key : list Z) (mt : list Z) (i j : nat)
  : list Z * nat :=
  match k with
  | 0 => (mt, i)
  | S k' =>
      let prev := word mt (i - 1) in
      let v := u32 (Z.lxor (word mt i)
                      (Z.lxor prev (Z.shiftr prev 30) * 1664525)
                    + word key j + Z.of_nat j) in
      let (mt', i') := advance (<[i := v]> mt) i in
      let j' := if decide (length key <= S j) then 0 else S j in
      mix_key k' key mt' i' j'
  end.

(** The second loop of [init_by_array], [k] iterations. *)
Fixpoint mix_index (k : nat) (mt : list Z) (i : nat) : list Z :=
  match k with
  | 0 => mt
  | S k' =>
      let prev := word mt (i - 1) in
      let v := u32 (Z.lxor (word mt i)
                      (Z.lxor prev (Z.shiftr prev 30) * 1566083941)
                    - Z.of_nat i) in
      let (mt', i') := advance (<[i := v]> mt) i in
      mix_index k' mt' i'
  end.

Definition init_by_array (key : list Z) : state :=
  let s := init_genrand 19650218 in
  let (mt1, i) := mix_key (Nat.max N (length key)) key (mt s) 1 0 in
  let mt2 := mix_index (N - 1) mt1 i in
  {| mt := <[0 := 0x80000000%Z]> mt2; index := N |}.

(** The 32-bit digits of a non-negative [n], least significant first;
    one digit for 0. *)
Fixpoint key_of (digits : nat) (n : Z) : list Z :=
  match digits with
  | 0 => []
  | S d => u32 n :: key_of d (Z.shiftr n 32)
  end.

(** [random.seed(a)] for an int [a]: the key is [abs(a)]. *)
Definition seed (a : Z) : state :=
  let n := Z.abs a in
  let bits := if (n =? 0)%Z then 0%Z else (Z.log2 n + 1)%Z in
  let keyused := if (bits =? 0)%Z then 1%Z else ((bits - 1) / 32 + 1)%Z in
  init_by_array (key_of (Z.to_nat keyused) n).

(** The regeneration of the [N] words. The three stretches of the C code
    ([kk + M], [kk + (M - N)], and the last word against [mt[0]]) are one
    loop with the indices taken modulo [N]. *)
Fixpoint twist (count kk : nat) (mt : list Z) : list Z :=
  match count with
  | 0 => mt
  | S count' =>
      let y := Z.lor (Z.land (word mt kk) UPPER_MASK)
                     (Z.land (word mt (S kk mod N)) LOWER_MASK) in
      let mag := if Z.odd y then MATRIX_A else 0%Z in
      let v := Z.lxor (Z.lxor (word mt ((kk + M) mod N)) (Z.shiftr y 1)) mag in
      twist count' (S kk) (<[kk := v]> mt)
  end.

Definition genrand_uint32 (s : state) : Z * state :=
  let s := if decide (N <= index s)
           then {| mt := twist N 0 (mt s); index := 0 |} else s in
  let y := word (mt s) (index s) in
  let y := Z.lxor y (Z.shiftr y 11) in
  let y := Z.lxor y (Z.land (u32 (Z.shiftl y 7)) 0x9d2c5680) in
  let y := Z.lxor y (Z.land (u32 (Z.shiftl y 15)) 0xefc60000) in
  let y := Z.lxor y (Z.shiftr y 18) in
  (y, {| mt := mt s; index := S (index s) |}).

(** The words of [getrandbits(k)] for [k > 32], least significant first;
    the last one keeps its top [k mod 32] bits. *)
Fixpoint getrandwords (words : nat) (k : Z) (s : state) : Z * state :=
  match words with
  | 0 => (0%Z, s)
  | S words' =>
      let (r, s') := genrand_uint32 s in
      let r := if (k <? 32)%Z then Z.shiftr r (32 - k) else r in
      let (hi, s'') := getrandwords words' (k - 32) s' in
      ((r + Z.shiftl hi 32)%Z, s'')
  end.

Definition getrandbits (k : Z) (s : state) : Z * state :=
  if (k =? 0)%Z then (0%Z, s)
  else if (k <=? 32)%Z then
    let (r, s') := genrand_uint32 s in (Z.shiftr r (32 - k), s')
  else getrandwords (Z.to_nat ((k - 1) / 32 + 1)) k s.

(** [r = getrandbits(k); while r >= n: r = getrandbits(k)]. A draw is
    below [n] at least every other time; Python draws until one is, the
    model for at most [draws] draws and then yields 0. *)
Fixpoint draw_below (draws : nat) (k : Z) (n : Z) (s : state) : Z * state :=
  let (r, s') := getrandbits k s in
  if (r <? n)%Z then (r, s')
  else match draws with
       | 0 => (0%Z, s')
       | S draws' => draw_below draws' k n s'
       end.

Definition max_draws : nat := 4096.

Definition randbelow (n : nat) (s : state) : nat * state :=
  let k := if decide (n = 0) then 0%Z else (Z.log2 (Z.of_nat n) + 1)%Z in
  let (r, s') := draw_below max_draws k (Z.of_nat n) s in
  (Z.to_nat r, s').

End MT19937.

(** The generator as a [Random]: a draw either is below [n] or, when the
    draws run out, is 0. *)
Global Instance mt19937 : Random.
Proof.
  refine {| rng_state := MT19937.state;
            seed := MT19937.seed;
            randbelow := MT19937.randbelow;
            randbelow_lt := _ |}.
  intros n s Hn. unfold MT19937.randbelow.
  generalize (if decide (n = 0) then 0%Z else (Z.log2 (Z.of_nat n) + 1)%Z).
  intros k. generalize MT19937.max_draws. intros draws. revert s.
  induction draws as [|draws IH]; intros s; cbn [MT19937.draw_below];
    destruct (MT19937.getrandbits k s) as [r s'];
    destruct (Z.ltb_spec r (Z.of_nat n)); cbn [fst]; try lia.
  apply IH.
Defined.

Section Shuffle.
Context {R : Random} {A : Type}.

(** The body of [Random.shuffle]:
    [for i in reversed(range(1, len(x))): j = randbelow(i + 1); swap].
    [shuffle_from i] runs the iterations [i, i-1, ..., 1]. *)
Fixpoint shuffle_from (i : nat) (x : list A) (g : rng_state)
  : result (list A * rng_state) :=
  match i with
  | 0 => Ok (x, g)
  | S i' =>
      let (j, g') := randbelow (i + 1) g in
      x' ← Seq.swap i j x;
      shuffle_from i' x' g'
  end.

Definition shuffle (x : list A) (g : rng_state)
  : result (list A * rng_state) :=
  shuffle_from (length x - 1) x g.

End Shuffle.

(** ** Binary64 arithmetic *)

(** Python's [float] is IEEE 754 binary64, here the standard library's
    executable specification [spec_float] at precision 53. *)
Module Float.

Definition prec : Z := 53.
Definition emax : Z := 1024.

(** The literal [0.8]: the double nearest to 4/5, 0x1.999999999999ap-1. *)
Definition lit_0_8 : spec_float := S754_finite false 7205759403792794 (-53).

(** [float(n)] for an [int]: correctly rounded, [OverflowError] when the
    integer is too large for a double. *)
Definition of_int (n : Z) : result spec_float :=
  match binary_normalize prec emax n 0 false with
  | S754_infinity _ => Raise OverflowError
  | f => Ok f
  end.

Definition mul (x y : spec_float) : spec_float := SFmul prec emax x y.

(** [int(x)]: truncation toward zero; infinities and NaN raise. *)
Definition to_int (x : spec_float) : result Z :=
  match x with
  | S754_zero _ => Ok 0%Z
  | S754_finite s m e =>
      Ok (cond_Zopp s
            (match e with
             | Zneg k => Z.shiftr (Zpos m) (Zpos k)
             | _ => Z.shiftl (Zpos m) e
             end))
  | S754_infinity _ => Raise OverflowError
  | S754_nan => Raise ValueError
  end.

(** [x * n] for a float [x] and an int [n]: [n] is converted first. *)
Definition mul_int (x : spec_float) (n : Z) : result spec_float :=
  y ← of_int n; mret (mul x y).

End Float.

(** Two descriptions of the rounding inside [SFmul], used to reason about
    it. [shr_state a j] is what [j] steps of the shift register [shr_1]
    make of [(a, false, false)]: the quotient, the bit shifted out last, and
    whether any earlier bit was set. *)
Definition shr_state (a : Z) (j : nat) : shr_record :=
  {| shr_m := (a / 2 ^ Z.of_nat j)%Z;
     shr_r := match j with
              | O => false
              | S j' => Z.testbit a (Z.of_nat j')
              end;
     shr_s := match j with
              | O => false
              | S j' => negb (a mod 2 ^ Z.of_nat j' =? 0)%Z
              end |}.

(** [rne a u] is [a / 2 ^ u] rounded to the nearest integer, ties to even. *)
Definition rne (a u : Z) : Z :=
  let q := (a / 2 ^ u)%Z in
  match (2 * (a mod 2 ^ u) ?= 2 ^ u)%Z with
  | Lt => q
  | Eq => if Z.even q then q else (q + 1)%Z
  | Gt => (q + 1)%Z
  end.

(** [n_train = int(0.8 * n)] *)
Definition n_train_of (n : nat) : result Z :=
  x ← Float.mul_int Float.lit_0_8 (Z.of_nat n); Float.to_int x.

(** The most items a list can hold: its length is a [Py_ssize_t]. *)
Definition PY_SSIZE_T_MAX : Z := 2 ^ 63 - 1.

(** ** Paths and files *)

(** A path is the list of its components below the working directory of
    cells 5 and 7 (the FinLoRA checkout); [[]] is that directory itself. *)
Abbreviation path := (list string) (only parsing).

Module Paths.

(** The components of [s] between the separators [sep]. *)
Fixpoint split_from (sep : ascii) (part s : string) : list string :=
  match s with
  | EmptyString => [part]
  | String c s' =>
      if Ascii.eqb c sep then part :: split_from sep "" s'
      else split_from sep (part +:+ String c "") s'
  end.

(** [Path(s)] for a relative [s]: empty and [.] components are dropped,
    [..] is kept (pathlib does not resolve it). *)
Definition Path (s : string) : path :=
  filter (fun part => part ≠ "" ∧ part ≠ ".") (split_from "/" "" s).

(** [p.parent] *)
Definition parent (p : path) : path := removelast p.

(** What the operating system makes of [p] seen from the directory [cwd]:
    a [..] steps back to the parent. *)
Fixpoint resolve_from (cwd : path) (p : path) : path :=
  match p with
  | [] => cwd
  | part :: p' =>
      if decide (part = "..") then resolve_from (parent cwd) p'
      else resolve_from (cwd ++ [part])%list p'
  end.

End Paths.

Inductive node : Type :=
  | File (content : string)
  | Dir.

Global Instance node_eq_dec : EqDecision node.
Proof. solve_decision. Defined.

Section Cells.
Context {R : Random}.

(** The state a cell runs in. *)
Record World : Type := {
  fs : gmap path node;
  stdout : list string;
  rng : rng_state
}.

(** A statement: it ends with a value or an exception, and in both cases
    leaves a world behind. *)
Definition M (A : Type) : Type := World -> result A * World.

Definition ret {A} (a : A) : M A := fun w => (Ok a, w).
Definition raise {A} (e : exn) : M A := fun w => (Raise e, w).
Definition bind {A B} (c : M A) (k : A -> M B) : M B := fun w =>
  match c w with
  | (Ok a, w') => k a w'
  | (Raise e, w') => (Raise e, w')
  end.
Definition lift {A} (r : result A) : M A := fun w => (r, w).

Global Instance M_ret : MRet M := @ret.
Global Instance M_bind : MBind M := fun _ _ k c => bind c k.

Definition with_fs (f : gmap path node) (w : World) : World :=
  {| fs := f; stdout := stdout w; rng := rng w |}.
Definition with_rng (g : rng_state) (w : World) : World :=
  {| fs := fs w; stdout := stdout w; rng := g |}.

(** What is at [p]; the working directory is always there. *)
Definition node_at (w : World) (p : path) : option node :=
  match p with
  | [] => Some Dir
  | _ => fs w !! p
  end.

(** [p.exists()] *)
Definition path_exists (p : path) : M bool := fun w =>
  (Ok (bool_decide (is_Some (node_at w p))), w).

(** [p.is_dir()] *)
Definition is_dir (w : World) (p : path) : bool :=
  bool_decide (node_at w p = Some Dir).

(** [open(p, 'r').read()] in text mode. *)
Definition read_text (p : path) : M string := fun w =>
  match node_at w p with
  | Some (File c) => (Ok (Text.universal_newlines c), w)
  | Some Dir => (Raise IsADirectoryError, w)
  | None => (Raise FileNotFoundError, w)
  end.

(** The check every creating call makes on the directory of [p]. *)
Definition parent_error (w : World) (p : path) : option exn :=
  match node_at w (Paths.parent p) with
  | Some Dir => None
  | Some (File _) => Some NotADirectoryError
  | None => Some FileNotFoundError
  end.

(** [with open(p, 'w') as f: f.write(s)] in text mode on POSIX, where a
    newline is written as it is: the file is created or truncated, then
    holds [s]. *)
Definition write_text (p : path) (s : string) : M unit := fun w =>
  match parent_error w p with
  | Some e => (Raise e, w)
  | None =>
      match node_at w p with
      | Some Dir => (Raise IsADirectoryError, w)
      | _ => (Ok (), with_fs (<[p := File s]> (fs w)) w)
      end
  end.

(** [os.mkdir(p)] *)
Definition os_mkdir (p : path) : M unit := fun w =>
  match parent_error w p with
  | Some e => (Raise e, w)
  | None =>
      match node_at w p with
      | Some _ => (Raise FileExistsError, w)
      | None => (Ok (), with_fs (<[p := Dir]> (fs w)) w)
      end
  end.

(** [Path.mkdir(parents, exist_ok)] as pathlib writes it: try [os.mkdir];
    on [FileNotFoundError] make the parent and try again without
    [parents]; on any other [OSError] give up unless [exist_ok] and the
    path is a directory. [depth] counts the components of [p]: at 0 the
    path is its own parent and the error is raised again. *)
Fixpoint mkdir_at (depth : nat) (parents exist_ok : bool) (p : path)
  : M unit := fun w =>
  match os_mkdir p w with
  | (Ok u, w') => (Ok u, w')
  | (Raise FileNotFoundError, w') =>
      match depth with
      | S d =>
          if parents then
            match mkdir_at d true true (Paths.parent p) w' with
            | (Ok _, w'') => mkdir_at d false exist_ok p w''
            | (Raise e, w'') => (Raise e, w'')
            end
          else (Raise FileNotFoundError, w')
      | 0 => (Raise FileNotFoundError, w')
      end
  | (Raise e, w') =>
      if exist_ok && is_dir w' p then (Ok (), w') else (Raise e, w')
  end.

Definition mkdir (parents exist_ok : bool) (p : path) : M unit :=
  mkdir_at (length p) parents exist_ok p.

(** [print(s)] *)
Definition print (s : string) : M unit := fun w =>
  (Ok (), {| fs := fs w; stdout := (stdout w ++ [s])%list; rng := rng w |}).

(** [random.seed(a)] *)
Definition random_seed (a : Z) : M unit := fun w =>
  (Ok (), with_rng (seed a) w).

(** [random.shuffle(x)]: the list is shuffled in place; the model
    returns it. *)
Definition random_shuffle {A} (x : list A) : M (list A) := fun w =>
  match shuffle x (rng w) with
  | Ok (x', g) => (Ok x', with_rng g w)
  | Raise e => (Raise e, w)
  end.

End Cells.

Arguments World R : clear implicits.
Arguments M R A : clear implicits.

(** ** JSON *)

(** The values [json.load] returns: [null], booleans, ints, floats,
    strings, lists, and dicts with string keys. *)
Inductive json : Type :=
  | JNull
  | JBool (b : bool)
  | JInt (z : Z)
  | JFloat (x : spec_float)
  | JStr (s : string)
  | JArr (l : list json)
  | JObj (m : gmap string json).

(** The two functions of the [json] module the merger calls. The decoder
    rejects a text that is not JSON; the encoder takes the indentation. *)
Class JsonCodec : Type := {
  json_loads : string -> option json;
  json_dumps : nat -> json -> string
}.

(** A codec to run the merger on example files. It covers a fragment of
    what Python's [json] reads and writes: objects, arrays, strings with the
    one-letter escapes, integers, plain decimal fractions of up to 22 places
    with a numerator below [2 ^ 53], and the three constants. What is
    outside the fragment ([\u] escapes, exponents, [NaN]) is rejected by the
    decoder. The encoder writes the members of an object in the order of the
    map, where Python writes them in insertion order. *)
Module MiniJson.

Definition quote : ascii := "034"%char.
Definition backslash : ascii := "092"%char.

Definition is_ws (c : ascii) : bool :=
  match N_of_ascii c with
  | 32 | 9 | 10 | 13 => true
  | _ => false
  end%N.

Fixpoint skip_ws (s : string) : string :=
  match s with
  | String c s' => if is_ws c then skip_ws s' else s
  | EmptyString => s
  end.

Definition is_digit (c : ascii) : bool :=
  (48 <=? N_of_ascii c)%N && (N_of_ascii c <=? 57)%N.

Definition digit_value (c : ascii) : Z := (Z.of_N (N_of_ascii c) - 48)%Z.

(** The leading digits of [s]: their value, their number, and the rest. *)
Fixpoint digits (acc : Z) (count : nat) (s : string) : Z * nat * string :=
  match s with
  | String c s' =>
      if is_digit c then digits (10 * acc + digit_value c)%Z (S count) s'
      else (acc, count, s)
  | EmptyString => (acc, count, s)
  end.

(** The double nearest to [num / 10 ^ places]: one correctly rounded
    division of two integers that are doubles themselves. *)
Definition decimal (negative : bool) (num : Z) (places : nat)
  : option spec_float :=
  if (num <? 2 ^ 53)%Z && (places <=? 22)%nat then
    let q := SFdiv Float.prec Float.emax
               (binary_normalize Float.prec Float.emax num 0 false)
               (binary_normalize Float.prec Float.emax
                  (10 ^ Z.of_nat places) 0 false) in
    Some (if negative then SFopp q else q)
  else None.

(** A number: an optional minus sign, then 0 or digits without a
    leading 0, then an optional point followed by digits. *)
Definition number (s : string) : option (json * string) :=
  let (negative, s1) :=
    match s with
    | String "-" s' => (true, s')
    | _ => (false, s)
    end in
  let '(i, ni, s2) :=
    match s1 with
    | String "0" s' => (0%Z, 1, s')
    | _ => digits 0 0 s1
    end in
  match ni with
  | 0 => None
  | _ =>
      let int := Some (JInt (if negative then (- i)%Z else i), s2) in
      match s2 with
      | String "." s3 =>
          let '(f, nf, s4) := digits 0 0 s3 in
          match nf with
          | 0 => int
          | _ =>
              x ← decimal negative (i * 10 ^ Z.of_nat nf + f)%Z nf;
              Some (JFloat x, s4)
          end
      | String "e" _ | String "E" _ => None
      | _ => int
      end
  end.

Definition unescape (c : ascii) : option ascii :=
  match c with
  | "b" => Some "008" | "f" => Some "012" | "n" => Some "010"
  | "r" => Some "013" | "t" => Some "009" | "/" => Some "/"
  | _ => if Ascii.eqb c quote then Some quote
         else if Ascii.eqb c backslash then Some backslash else None
  end%char.

(** The characters of a string up to its closing quote. *)
Fixpoint chars (acc : string) (s : string) : option (string * string) :=
  match s with
  | EmptyString => None
  | String c s' =>
      if Ascii.eqb c quote then Some (acc, s')
      else if Ascii.eqb c backslash then
        match s' with
        | String e s'' =>
            match unescape e with
            | Some c' => chars (acc +:+ String c' "") s''
            | None => None
            end
        | EmptyString => None
        end
      else if (N_of_ascii c <? 32)%N then None
      else chars (acc +:+ String c "") s'
  end.

Section Containers.
Variable value : string -> option (json * string).

(** The members of an object after the first [{]; [n] bounds their
    number. A repeated key keeps its last value. *)
Fixpoint members (n : nat) (m : gmap string json) (s : string)
  : option (json * string) :=
  match n with
  | 0 => None
  | S n' =>
      match skip_ws s with
      | String c s1 =>
          if Ascii.eqb c quote then
            '(k, s2) ← chars "" s1;
            match skip_ws s2 with
            | String ":" s3 =>
                '(v, s4) ← value s3;
                match skip_ws s4 with
                | String "," s5 => members n' (<[k := v]> m) s5
                | String "}" s5 => Some (JObj (<[k := v]> m), s5)
                | _ => None
                end
            | _ => None
            end
          else None
      | EmptyString => None
      end
  end.

(** The elements of an array after the first [[]. *)
Fixpoint elements (n : nat) (l : list json) (s : string)
  : option (json * string) :=
  match n with
  | 0 => None
  | S n' =>
      '(v, s1) ← value s;
      match skip_ws s1 with
      | String "," s2 => elements n' (l ++ [v]) s2
      | String "]" s2 => Some (JArr (l ++ [v]), s2)
      | _ => None
      end
  end.

End Containers.

Definition literal (word : string) (v : json) (s : string)
  : option (json * string) :=
  if String.prefix word s
  then Some (v, String.substring (String.length word)
                  (String.length s - String.length word) s)
  else None.

(** One value; [fuel] bounds the nesting. *)
Fixpoint value (fuel : nat) (s : string) : option (json * string) :=
  match fuel with
  | 0 => None
  | S fuel' =>
      match skip_ws s with
      | EmptyString => None
      | String c s1 =>
          if Ascii.eqb c "{" then
            match skip_ws s1 with
            | String "}" s2 => Some (JObj ∅, s2)
            | _ => members (value fuel') (String.length s1) ∅ s1
            end
          else if Ascii.eqb c "[" then
            match skip_ws s1 with
            | String "]" s2 => Some (JArr [], s2)
            | _ => elements (value fuel') (String.length s1) [] s1
            end
          else if Ascii.eqb c quote then
            '(x, s2) ← chars "" s1; Some (JStr x, s2)
          else if Ascii.eqb c "-" || is_digit c then number (String c s1)
          else match c with
               | "n" => literal "null" JNull (String c s1)
               | "t" => literal "true" (JBool true) (String c s1)
               | "f" => literal "false" (JBool false) (String c s1)
               | _ => None
               end%char
      end
  end.

(** [json.loads]: one value and nothing but white space after it. *)
Definition loads (s : string) : option json :=
  '(v, rest) ← value (S (String.length s)) s;
  match skip_ws rest with
  | EmptyString => Some v
  | _ => None
  end.

Definition escape_char (c : ascii) : string :=
  if Ascii.eqb c quote then String backslash (String quote "")
  else if Ascii.eqb c backslash then String backslash (String backslash "")
  else match c with
       | "008" => String backslash "b" | "012" => String backslash "f"
       | "010" => String backslash "n" | "013" => String backslash "r"
       | "009" => String backslash "t"
       | _ => String c ""
       end%char.

Fixpoint escape (s : string) : string :=
  match s with
  | EmptyString => ""
  | String c s' => escape_char c +:+ escape s'
  end.

Definition quoted (s : string) : string :=
  String quote (escape s +:+ String quote "").

Definition float_eqb (x y : spec_float) : bool :=
  match x, y with
  | S754_zero a, S754_zero b | S754_infinity a, S754_infinity b =>
      Bool.eqb a b
  | S754_nan, S754_nan => true
  | S754_finite a m e, S754_finite b m' e' =>
      Bool.eqb a b && Pos.eqb m m' && Z.eqb e e'
  | _, _ => false
  end.

(** The integer nearest to [m * 2 ^ e * 10 ^ places]. *)
Definition scaled (m : positive) (e : Z) (places : nat) : Z :=
  let a := (Z.pos m * 10 ^ Z.of_nat places)%Z in
  match e with
  | Zneg p => ((2 * a + 2 ^ Z.pos p) / 2 ^ (Z.pos p + 1))%Z
  | _ => (a * 2 ^ e)%Z
  end.

(** The fewest decimal places with which [m * 2 ^ e] reads back as
    itself, trying [places, places + 1, ...], [tries] times. *)
Fixpoint shortest (tries places : nat) (m : positive) (e : Z)
  : option (Z * nat) :=
  match tries with
  | 0 => None
  | S tries' =>
      let num := scaled m e places in
      match decimal false num places with
      | Some y =>
          if float_eqb y (S754_finite false m e) then Some (num, places)
          else shortest tries' (S places) m e
      | None => None
      end
  end.

Fixpoint zeros (n : nat) : string :=
  match n with
  | 0 => ""
  | S n' => String "0" (zeros n')
  end.

(** [num / 10 ^ places] in decimal notation, at least one digit on each
    side of the point. *)
Definition decimal_text (num : Z) (places : nat) : string :=
  let ds := pretty num in
  let ds := zeros (S places - String.length ds) +:+ ds in
  let cut := String.length ds - places in
  String.substring 0 cut ds +:+ "." +:+
  match places with
  | 0 => "0"
  | _ => String.substring cut places ds
  end.

(** A double in the fragment is written with the fewest places that
    read back as the same double, as [repr] does; any other finite
    double with its full decimal expansion. *)
Definition float_text (x : spec_float) : string :=
  match x with
  | S754_zero s => if s then "-0.0" else "0.0"
  | S754_infinity s => if s then "-Infinity" else "Infinity"
  | S754_nan => "NaN"
  | S754_finite s m e =>
      (if s then "-" else "") +:+
      match shortest 23 0 m e with
      | Some (num, places) => decimal_text num places
      | None =>
          match e with
          | Zneg p => decimal_text (Z.pos m * 5 ^ Z.pos p) (Pos.to_nat p)
          | _ => decimal_text (Z.pos m * 2 ^ e) 0
          end
      end
  end.

Fixpoint spaces (n : nat) : string :=
  match n with
  | 0 => ""
  | S n' => String " " (spaces n')
  end.

Definition break (indent level : nat) : string :=
  String Text.LF (spaces (indent * level)).

(** [json.dumps(v, indent=indent)] at nesting [level]; [fuel] bounds the
    nesting, which Python bounds by its recursion limit. *)
Fixpoint dumps_at (fuel indent level : nat) (v : json) : string :=
  match fuel with
  | 0 => ""
  | S fuel' =>
      let inner := break indent (S level) in
      match v with
      | JNull => "null"
      | JBool b => if b then "true" else "false"
      | JInt z => pretty z
      | JFloat x => float_text x
      | JStr s => quoted s
      | JArr l =>
          match l with
          | [] => "[]"
          | _ => "[" +:+ inner
                 +:+ Text.join ("," +:+ inner)
                       (map (dumps_at fuel' indent (S level)) l)
                 +:+ break indent level +:+ "]"
          end
      | JObj m =>
          match map_to_list m with
          | [] => "{}"
          | kvs => "{" +:+ inner
                   +:+ Text.join ("," +:+ inner)
                         (map (fun kv => quoted (fst kv) +:+ ": " +:+
                                 dumps_at fuel' indent (S level) (snd kv))
                              kvs)
                   +:+ break indent level +:+ "}"
          end
      end
  end.

Definition dumps (indent : nat) (v : json) : string :=
  dumps_at 1000 indent 0 v.

End MiniJson.

Definition mini_json : JsonCodec := {|
  json_loads := MiniJson.loads;
  json_dumps := MiniJson.dumps
|}.

(** [json.load(f)]: decode what [f.read()] returns. *)
Definition json_load `{JsonCodec} (text : string) : result json :=
  match json_loads text with
  | Some v => Ok v
  | None => Raise JSONDecodeError
  end.

(** [v[k] = x]: item assignment with a string key. Only a dict supports it
    ([list] wants integer indices, the other values have no item
    assignment at all): everything else raises [TypeError]. *)
Definition setitem (v : json) (k : string) (x : json) : result json :=
  match v with
  | JObj m => Ok (JObj (<[k := x]> m))
  | _ => Raise TypeError
  end.

(** ** Cell 5: the splitter *)

Definition raw_file : path := Paths.Path "data/finai_raw.jsonl".
Definition train_dir : path := Paths.Path "data/train".
Definition test_dir : path := Paths.Path "data/test".
Definition train_file : path := Paths.Path "data/train/finai_train.jsonl".
Definition test_file : path := Paths.Path "data/test/finai_test.jsonl".

Section Splitter.
Context {R : Random}.

(** The shuffle and the cut: from the lines read to
    [(n, train_lines, test_lines)]. *)
Definition split_lines (lines : list string)
  : M R (nat * list string * list string) :=
  random_seed 42;;
  lines ← random_shuffle lines;
  let n := length lines in
  n_train ← lift (n_train_of n);
  let train_lines := Seq.slice_to lines n_train in
  let test_lines := Seq.slice_from lines n_train in
  mret (n, train_lines, test_lines).

(** What one partition's file holds. *)
Definition dump_lines (lines : list string) : string :=
  Text.join Text.newline lines +:+ Text.newline.

(** The output paths are free for the splitter: [data] is a directory,
    no file sits where a directory is to be made, and no directory where
    a file is to be written. *)
Definition outputs_writable (w : World R) : Prop :=
  fs w !! Paths.Path "data" = Some Dir
  ∧ (fs w !! train_dir = None ∨ fs w !! train_dir = Some Dir)
  ∧ (fs w !! test_dir = None ∨ fs w !! test_dir = Some Dir)
  ∧ fs w !! train_file ≠ Some Dir
  ∧ fs w !! test_file ≠ Some Dir.

(** The files after a run that wrote [train_lines] and [test_lines]. *)
Definition fs_after_split (f : gmap path node)
    (train_lines test_lines : list string) : gmap path node :=
  <[test_file := File (dump_lines test_lines)]>
    (<[train_file := File (dump_lines train_lines)]>
       (<[test_dir := Dir]> (<[train_dir := Dir]> f))).

Definition split_message (n n1 n2 : nat) : string :=
  "Split " +:+ pretty n +:+ " examples into " +:+ pretty n1
    +:+ " examples for fine-tuning and " +:+ pretty n2
    +:+ " examples for testing".

Definition missing_message : string :=
  "Please create " +:+ Text.join "/" raw_file
    +:+ " with your collected Q&A pairs first".

(** The cell. Its value is the pair [(train_lines, test_lines)] it binds,
    or [None] when it takes the [else] branch and binds nothing. *)
Definition cell5 : M R (option (list string * list string)) :=
  found ← path_exists raw_file;
  if (found : bool) then
    text ← read_text raw_file;
    let lines := Text.splitlines text in
    '(n, train_lines, test_lines) ← split_lines lines;
    mkdir true true train_dir;;
    mkdir true true test_dir;;
    write_text train_file (dump_lines train_lines);;
    write_text test_file (dump_lines test_lines);;
    print (split_message n (length train_lines) (length test_lines));;
    mret (Some (train_lines, test_lines))
  else
    print missing_message;;
    mret None.

End Splitter.

(** ** Cell 7: the config merger *)

Definition config_file : path := Paths.Path "lora/finetune_configs.json".

(** The key cell 7 sets. *)
Definition merged_key : string := "finai_llama_3_1_8b_8bits_r8_lora".

(** The literal [1e-4], 0x1.a36e2eb1c432dp-14. *)
Definition lit_1e_4 : spec_float := S754_finite false 7378697629483821 (-66).

(** The entry cell 7 stores under [merged_key]. *)
Definition merged_entry : json :=
  JObj (list_to_map
    [ ("base_model", JStr "meta-llama/Llama-3.1-8B-Instruct");
      ("dataset_path", JStr "../data/train/competition_train.jsonl");
      ("lora_r", JInt 8);
      ("quant_bits", JInt 8);
      ("learning_rate", JFloat lit_1e_4);
      ("num_epochs", JInt 4);
      ("batch_size", JInt 2);
      ("gradient_accumulation_steps", JInt 2) ]).

(** The merge on the mapping itself. *)
Definition merge_config (configs : gmap string json) : gmap string json :=
  <[merged_key := merged_entry]> configs.

Section Merger.
Context {R : Random} {J : JsonCodec}.

Definition cell7 : M R unit :=
  text ← read_text config_file;
  configs ← lift (json_load text);
  configs ← lift (setitem configs merged_key merged_entry);
  write_text config_file (json_dumps 2 configs).

End Merger.

(** ** Cell 9: the fine-tuning call *)

(** [%cd lora] *)
Definition finetune_cwd : path := Paths.Path "lora".

(** [!python finetune.py competition_llama_3_1_8b_8bits_r8_lora] *)
Definition finetune_argv : list string :=
  ["python"; "finetune.py"; "competition_llama_3_1_8b_8bits_r8_lora"].

(** The one positional argument of [finetune.py]: the configuration key. *)
Definition finetune_key : string := nth 2 finetune_argv "".

(** The [dataset_path] field of a configuration entry. *)
Definition dataset_path (entry : json) : option string :=
  match entry with
  | JObj fields =>
      match fields !! "dataset_path" with
      | Some (JStr s) => Some s
      | _ => None
      end
  | _ => None
  end.

(** The file a dataset path names for the fine-tuning program, which runs
    in [finetune_cwd]. *)
Definition dataset_file (s : string) : path :=
  Paths.resolve_from finetune_cwd (Paths.Path s).

(** ** Reading a written file back *)

(** [with open(p, 'r', encoding='utf-8') as f: lines = f.read().splitlines()],
    the way cell 5 reads its input, for any path [p]. *)
Definition read_lines {R : Random} (p : path) : M R (list string) :=
  text ← read_text p; mret (Text.splitlines text).

(** A string without a line boundary: one line of a file. *)
Fixpoint one_line (s : string) : bool :=
  match s with
  | EmptyString => true
  | String c s' => negb (Text.is_linebreak c) && one_line s'
  end.

(** The paths cell 5 may create or write. *)
Definition split_outputs : list path :=
  [Paths.Path "data"; train_dir; test_dir; train_file; test_file].

(** [keeps Rel c]: whatever the outcome of [c], the world it leaves is
    related by [Rel] to the world it started in. *)
Definition keeps {R : Random} (Rel : World R -> World R -> Prop) {A}
    (c : M R A) : Prop :=
  forall w, Rel w (snd (c w)).

(** The files outside [paths] are the same in both worlds. *)
Definition same_outside {R : Random} (paths : list path) (w w' : World R)
  : Prop :=
  forall q, q ∉ paths -> fs w' !! q = fs w !! q.

(** What is in the first world is in the second, outside [paths]: nothing
    was removed or replaced. *)
Definition nothing_lost {R : Random} (paths : list path) (w w' : World R)
  : Prop :=
  forall q x, q ∉ paths -> fs w !! q = Some x -> fs w' !! q = Some x.

(** Nothing was printed between the two worlds. *)
Definition same_output {R : Random} (w w' : World R) : Prop :=
  stdout w' = stdout w.

(** What a text-mode read followed by [splitlines] makes of a partition
    file: the lines written, except that the file of an empty partition
    (a lone newline) reads back as one empty line. *)
Definition read_back (lines : list string) : list string :=
  match lines with [] => [""] | _ => lines end.

(** ** Cell 11: the answers *)

Module Answer.

(** [c.isspace()] for a code point below 256. *)
Definition is_space (c : ascii) : bool :=
  match N_of_ascii c with
  | 9 | 10 | 11 | 12 | 13 | 28 | 29 | 30 | 31 | 32 | 133 | 160 => true
  | _ => false
  end%N.

Fixpoint lstrip (s : string) : string :=
  match s with
  | EmptyString => s
  | String c s' => if is_space c then lstrip s' else s
  end.

Fixpoint rstrip (s : string) : string :=
  match s with
  | EmptyString => EmptyString
  | String c s' =>
      match rstrip s' with
      | EmptyString => if is_space c then EmptyString else String c EmptyString
      | t => String c t
      end
  end.

(** [s.strip()] *)
Definition strip (s : string) : string := rstrip (lstrip s).

(** [s[k:]] for a non-negative [k]. *)
Fixpoint from (k : nat) (s : string) : string :=
  match k, s with
  | 0, _ => s
  | S k', String _ s' => from k' s'
  | S _, EmptyString => EmptyString
  end.

(** [response[len(question):].strip()] *)
Definition answer_of (question response : string) : string :=
  strip (from (String.length question) response).

(** [s * n] *)
Fixpoint times (s : string) (n : nat) : string :=
  match n with
  | 0 => ""
  | S n' => s +:+ times s n'
  end.

End Answer.

Definition base_model_name : string := "meta-llama/Llama-3.1-8B-Instruct".
Definition adapter_path : string :=
  "axolotl-output/competitionllama_3_1_8b_8bits_r8_lora".

Definition test_questions : list string :=
  [ "What is the primary purpose of a cash flow hedge under IFRS?";
    "Explain the concept of economic value added (EVA).";
    "How do you calculate the price-to-earnings ratio?" ].

(** The model stack cell 11 calls into: [load] stands for the three
    [from_pretrained] calls (tokenizer, base model, adapter) and gives the
    loaded pair; [respond] for tokenizing a question, [model.generate] and
    decoding the first output. Both are statements: they may raise and may
    change the world. *)
Class Inference (R : Random) : Type := {
  model : Type;
  load : string -> string -> M R model;
  respond : model -> string -> M R string
}.

Section Answers.
Context {R : Random} {I : Inference R}.

Definition question_line (question : string) : string :=
  String Text.LF ("Question: " +:+ question).

Definition answer_line (question response : string) : string :=
  "Answer: " +:+ Answer.answer_of question response.

Definition rule : string := Answer.times "-" 80.

(** The body of the loop. *)
Definition ask (m : model) (question : string) : M R unit :=
  print (question_line question);;
  response ← respond m question;
  print (answer_line question response);;
  print rule.

(** [for question in questions: ...] *)
Fixpoint ask_all (m : model) (questions : list string) : M R unit :=
  match questions with
  | [] => mret ()
  | question :: questions' => ask m question;; ask_all m questions'
  end.

Definition cell11 : M R unit :=
  m ← load base_model_name adapter_path;
  ask_all m test_questions.

(** The lines printed for the questions answered, in order. *)
Definition transcript (asked : list (string * string)) : list string :=
  flat_map (fun '(question, response) =>
              [question_line question; answer_line question response; rule])
           asked.

End Answers.

(** ** Example worlds *)

(** Checkouts to run the cells on, with CPython's generator and the small
    codec. *)
Module Examples.

Definition world_of (files : list (path * node)) : World mt19937 :=
  {| fs := list_to_map files; stdout := []; rng := seed 0 |}.

(** A checkout whose raw file holds [text]. *)
Definition with_raw (text : string) : World mt19937 :=
  world_of [(Paths.Path "data", Dir); (raw_file, File text)].

(** A checkout whose configuration file holds [text]. *)
Definition with_config (text : string) : World mt19937 :=
  world_of [(Paths.Path "lora", Dir); (config_file, File text)].

Definition ten_lines : string :=
  Text.join Text.newline ["a"; "b"; "c"; "d"; "e"; "f"; "g"; "h"; "i"; "j"]
    +:+ Text.newline.

(** A configuration file with one entry, [m1]. *)
Definition one_entry : gmap string json :=
  {[ "m1" := JObj (list_to_map [("base_model", JStr "some/model");
                                ("lora_r", JInt 16)]) ]}.

Definition one_entry_text : string := MiniJson.dumps 2 (JObj one_entry).

(** As many empty lines as there are items in a list of [n] lines. *)
Definition empty_lines (n : Z) : list string := repeat "" (Z.to_nat n).

End Examples.

(** ** A model stack for examples *)

Module Echo.

(** A stand-in for the model stack: loading always works, and the
    response to a question is the question followed by a fixed text, the
    way a causal model's decoded output starts with its prompt. *)
Definition completion : string := "  It depends. ".

Instance inference : Inference mt19937 := {|
  model := unit;
  load := fun _ _ => ret tt;
  respond := fun _ question => ret (question +:+ completion)
|}.

End Echo.

(** ** Checkouts for the examples *)

Module Checkout.


(** A directory where the raw file should be. *)
Definition raw_is_a_directory : World mt19937 :=
  Examples.world_of [(Paths.Path "data", Dir); (raw_file, Dir)].

(** A regular file where the train directory should be. *)
Definition train_dir_is_a_file : World mt19937 :=
  Examples.world_of
    [(Paths.Path "data", Dir); (raw_file, File Examples.ten_lines);
     (train_dir, File "not a directory")].

(** A directory where the test file should be. *)
Definition test_file_is_a_directory : World mt19937 :=
  Examples.world_of
    [(Paths.Path "data", Dir); (raw_file, File Examples.ten_lines);
     (test_dir, Dir); (test_file, Dir)].

Definition form_feed : ascii := "012"%char.

(** One record with a form feed in it. *)
Definition cut_record : string :=
  "first half" +:+ String form_feed "second half" +:+ Text.newline.

(** Two lines with a Windows line end between them. *)
Definition windows_lines : string :=
  "a" +:+ String Text.CR (String Text.LF "b").

End Checkout.

(** * Facts *)

(** ** Binary64 multiplication by [0.8] *)

Section FloatFacts.
Local Open Scope Z_scope.

(** The iterator of [SpecFloat] is the one of [Pos]. *)
Lemma iter_pos_iter {A} (f : A -> A) p x :
SpecFloat.iter_pos f p x = Pos.iter f x p.
Proof.
revert x. induction p as [p IH|p IH|]; intros x; simpl.
- rewrite !IH. now rewrite <- !Pos.iter_swap.
- now rewrite !IH.
- reflexivity.
Qed.

(** One step of the shift register on a non-negative mantissa. *)
Lemma shr_1_nonneg m r s :
0 <= m -> shr_1 {| shr_m := m; shr_r := r; shr_s := s |} =
          {| shr_m := m / 2; shr_r := Z.odd m; shr_s := r || s |}.
Proof.
intros Hm. destruct m as [|p|p]; [reflexivity| |lia].
destruct p as [p|p|]; simpl.
- f_equal. rewrite Pos2Z.inj_xI. apply Z.div_unique with 1; lia.
- f_equal. rewrite Pos2Z.inj_xO. apply Z.div_unique with 0; lia.
- reflexivity.
Qed.

(** [shr_state] follows the shift register step by step. *)
Lemma shr_state_step a j : 0 <= a -> shr_1 (shr_state a j) = shr_state a (S j).
Proof.
intros Ha. unfold shr_state at 1.
rewrite shr_1_nonneg by (apply Z.div_pos; lia).
unfold shr_state. f_equal.
- rewrite Z.div_div by lia. f_equal. rewrite Nat2Z.inj_succ, Z.pow_succ_r; lia.
- rewrite Z.testbit_odd, Z.shiftr_div_pow2 by lia. reflexivity.
- destruct j as [|j]; [simpl; now rewrite Z.mod_1_r|].
  rewrite !Nat2Z.inj_succ, Z.pow_succ_r by lia.
  pose proof (Z.testbit_spec' a (Z.of_nat j) ltac:(lia)) as Hb.
  assert (H2 : 0 < 2 ^ Z.of_nat j) by (apply Z.pow_pos_nonneg; lia).
  assert (Hd : a mod (2 * 2 ^ Z.of_nat j) =
               2 ^ Z.of_nat j * ((a / 2 ^ Z.of_nat j) mod 2) + a mod 2 ^ Z.of_nat j).
  { rewrite (Z.mul_comm 2), Z.rem_mul_r by lia. lia. }
  rewrite Hd, <- Hb.
  pose proof (Z.mod_pos_bound a (2 ^ Z.of_nat j) H2).
  destruct (Z.testbit a (Z.of_nat j)); simpl.
  + destruct (Z.eqb_spec (2 ^ Z.of_nat j * 1 + a mod 2 ^ Z.of_nat j) 0); [lia|].
    reflexivity.
  + rewrite Z.mul_0_r, Z.add_0_l. reflexivity.
Qed.

(** [k] steps from an exact mantissa. *)
Lemma shr_iter a (k : positive) :
0 <= a ->
SpecFloat.iter_pos shr_1 k {| shr_m := a; shr_r := false; shr_s := false |} =
shr_state a (Pos.to_nat k).
Proof.
intros Ha. rewrite iter_pos_iter.
replace {| shr_m := a; shr_r := false; shr_s := false |} with (shr_state a 0)
  by (unfold shr_state; simpl; now rewrite Z.div_1_r).
induction k as [|k IH] using Pos.peano_ind.
- change (shr_1 (shr_state a 0) = shr_state a 1). now apply shr_state_step.
- rewrite Pos.iter_succ, IH, shr_state_step, Pos2Nat.inj_succ by lia. reflexivity.
Qed.

(** Rounding what the register holds after [k] steps is [rne]. *)
Lemma round_shr_state a (k : positive) :
0 <= a ->
round_nearest_even (shr_m (shr_state a (Pos.to_nat k)))
                   (loc_of_shr_record (shr_state a (Pos.to_nat k))) =
rne a (Z.pos k).
Proof.
intros Ha. destruct (Pos2Nat.is_succ k) as [j Hj]. rewrite Hj.
assert (Hk : Z.pos k = Z.of_nat j + 1) by lia.
unfold rne, shr_state. cbn [shr_m loc_of_shr_record]. rewrite Hk.
replace (Z.of_nat (S j)) with (Z.of_nat j + 1) by lia.
set (J := Z.of_nat j). assert (HJ : 0 <= J) by lia. clearbody J.
rewrite Z.pow_add_r, Z.pow_1_r by lia.
assert (H2 : 0 < 2 ^ J) by (apply Z.pow_pos_nonneg; lia).
pose proof (Z.testbit_spec' a J HJ) as Hb.
pose proof (Z.mod_pos_bound a (2 ^ J) H2) as Hlow.
rewrite (Z.rem_mul_r a (2 ^ J) 2), <- Hb by lia.
destruct (Z.testbit a J); simpl Z.b2z.
- destruct (Z.eqb_spec (a mod 2 ^ J) 0) as [E|E]; simpl.
  + rewrite E. replace (2 * (0 + 2 ^ J * 1)) with (2 ^ J * 2) by lia.
    now rewrite Z.compare_refl.
  + assert (C : (2 * (a mod 2 ^ J + 2 ^ J * 1) ?= 2 ^ J * 2) = Gt)
      by (apply Z.compare_gt_iff; lia).
    now rewrite C.
- assert (C : (2 * (a mod 2 ^ J + 2 ^ J * 0) ?= 2 ^ J * 2) = Lt)
    by (apply Z.compare_lt_iff; lia).
  rewrite C. now destruct (a mod 2 ^ J =? 0).
Qed.

(** A positive number of [d] binary digits lies in [2 ^ (d - 1), 2 ^ d). *)
Lemma digits2_bounds p :
2 ^ (Z.pos (digits2_pos p) - 1) <= Z.pos p < 2 ^ Z.pos (digits2_pos p).
Proof.
induction p as [p IH|p IH|]; cbn [digits2_pos];
  [change (Z.pos p~1) with (2 * Z.pos p + 1)
  | change (Z.pos p~0) with (2 * Z.pos p) | simpl; lia];
  rewrite Pos2Z.inj_succ;
  replace (Z.succ (Z.pos (digits2_pos p)) - 1)
    with (Z.succ (Z.pos (digits2_pos p) - 1)) by lia;
  rewrite !Z.pow_succ_r by lia;
  revert IH; generalize (2 ^ (Z.pos (digits2_pos p) - 1)),
                        (2 ^ Z.pos (digits2_pos p)); lia.
Qed.

(** ... and that interval determines [d]. *)
Lemma digits2_unique p k :
2 ^ (k - 1) <= Z.pos p < 2 ^ k -> Z.pos (digits2_pos p) = k.
Proof.
intros H. pose proof (digits2_bounds p) as B.
assert (Hk : 0 < k).
{ destruct (Z.lt_ge_cases 0 k); [easy|].
  assert (2 ^ k <= 2 ^ 0) by (apply Z.pow_le_mono_r; lia). simpl in *. lia. }
assert (Z.log2 (Z.pos p) = k - 1)
  by (apply Z.log2_unique; [lia|]; replace (Z.succ (k - 1)) with k by lia; easy).
assert (Z.log2 (Z.pos p) = Z.pos (digits2_pos p) - 1).
{ apply Z.log2_unique; [lia|].
  replace (Z.succ (Z.pos (digits2_pos p) - 1)) with (Z.pos (digits2_pos p)) by lia.
  easy. }
lia.
Qed.

(** In the normal range the exponent of a number leaves 53 bits. *)
Lemma fexp_normal x : -1021 <= x -> fexp 53 1024 x = x - 53.
Proof. unfold fexp, emin. lia. Qed.

(** Nothing is shifted out of a mantissa that fits. *)
Lemma shr_fexp_keep (m : positive) e :
fexp 53 1024 (Z.pos (digits2_pos m) + e) <= e ->
shr_fexp 53 1024 (Z.pos m) e loc_Exact =
({| shr_m := Z.pos m; shr_r := false; shr_s := false |}, e).
Proof.
intros H. unfold shr_fexp, shr. cbn [Zdigits2 shr_record_of_loc].
destruct (fexp 53 1024 (Z.pos (digits2_pos m) + e) - e) eqn:E;
  (reflexivity || lia).
Qed.

(** A longer mantissa is shifted by the excess [k]. *)
Lemma shr_fexp_shift (m k : positive) e :
fexp 53 1024 (Z.pos (digits2_pos m) + e) - e = Z.pos k ->
shr_fexp 53 1024 (Z.pos m) e loc_Exact =
(shr_state (Z.pos m) (Pos.to_nat k), e + Z.pos k).
Proof.
intros H. unfold shr_fexp, shr. cbn [Zdigits2 shr_record_of_loc].
rewrite H. now rewrite shr_iter by lia.
Qed.

(** A mantissa that fits is kept as it is. *)
Lemma round_aux_exact (m : positive) e :
Z.pos (digits2_pos m) <= 53 -> -1074 <= e <= 971 ->
binary_round_aux 53 1024 false (Z.pos m) e loc_Exact = S754_finite false m e.
Proof.
intros Hd He.
assert (Hf : fexp 53 1024 (Z.pos (digits2_pos m) + e) <= e)
  by (unfold fexp, emin; lia).
unfold binary_round_aux. rewrite shr_fexp_keep by exact Hf.
cbn [shr_m loc_of_shr_record round_nearest_even].
rewrite shr_fexp_keep by exact Hf. cbn [shr_m].
destruct (Z.leb_spec e (1024 - 53)); [reflexivity|lia].
Qed.

(** The rounded quotient is the quotient or the next integer. *)
Lemma rne_range a u :
0 <= u -> a / 2 ^ u <= rne a u <= a / 2 ^ u + 1.
Proof.
intros Hu. unfold rne.
destruct (2 * (a mod 2 ^ u) ?= 2 ^ u); [destruct (Z.even _)| |]; lia.
Qed.

(** The 53 leading bits of a number of [d] bits. *)
Lemma top_bits a d :
53 <= d -> 2 ^ (d - 1) <= a < 2 ^ d ->
2 ^ 52 <= a / 2 ^ (d - 53) < 2 ^ 53.
Proof.
intros Hd Ha.
assert (Hp : 0 < 2 ^ (d - 53)) by (apply Z.pow_pos_nonneg; lia).
assert (E1 : 2 ^ (d - 1) = 2 ^ 52 * 2 ^ (d - 53))
  by (rewrite <- Z.pow_add_r by lia; f_equal; lia).
assert (E2 : 2 ^ d = 2 ^ 53 * 2 ^ (d - 53))
  by (rewrite <- Z.pow_add_r by lia; f_equal; lia).
split; [apply Z.div_le_lower_bound|apply Z.div_lt_upper_bound]; lia.
Qed.

(** A longer mantissa is rounded to 53 bits, to nearest with ties to even;
  a carry out of the 53 bits moves the exponent once more. *)
Lemma round_aux_round (m : positive) e :
let d := Z.pos (digits2_pos m) in
53 < d -> -1021 <= d + e <= 1023 ->
binary_round_aux 53 1024 false (Z.pos m) e loc_Exact =
let q := rne (Z.pos m) (d - 53) in
if q =? 2 ^ 53 then S754_finite false (2 ^ 52)%positive (e + d - 52)
else S754_finite false (Z.to_pos q) (e + d - 53).
Proof.
intros d Hd He.
pose proof (digits2_bounds m) as Hm. fold d in Hm.
assert (Hk : fexp 53 1024 (Z.pos (digits2_pos m) + e) - e = Z.pos (Z.to_pos (d - 53))).
{ fold d. rewrite fexp_normal by lia. lia. }
unfold binary_round_aux. rewrite (shr_fexp_shift _ _ _ Hk).
rewrite round_shr_state by lia.
replace (Z.pos (Z.to_pos (d - 53))) with (d - 53) by lia.
cbv zeta.
pose proof (rne_range (Z.pos m) (d - 53) ltac:(lia)) as Hq.
pose proof (top_bits (Z.pos m) d ltac:(lia) Hm) as Hdiv.
set (q := rne (Z.pos m) (d - 53)) in *. clearbody q.
destruct (Z.eqb_spec q (2 ^ 53)) as [E|E].
- subst q.
  assert (Hs : fexp 53 1024 (Z.pos (digits2_pos (2 ^ 53)%positive) + (e + (d - 53)))
               - (e + (d - 53)) = Z.pos 1).
  { rewrite fexp_normal; simpl digits2_pos; lia. }
  change (2 ^ 53) with (Z.pos (2 ^ 53)%positive).
  rewrite (shr_fexp_shift _ _ _ Hs). cbn [shr_m shr_state Pos.to_nat Pos.iter_op Nat.add].
  change (Z.pos (2 ^ 53) / 2 ^ Z.of_nat 1) with (Z.pos (2 ^ 52)).
  cbv iota beta.
  destruct (Z.leb_spec (e + (d - 53) + 1) (1024 - 53)); [f_equal; lia|lia].
- assert (Hq' : 2 ^ 52 <= q < 2 ^ 53) by lia.
  destruct q as [|q|q]; try lia.
  assert (Hdq : Z.pos (digits2_pos q) = 53) by (apply digits2_unique; exact Hq').
  rewrite shr_fexp_keep by (rewrite Hdq, fexp_normal; lia).
  cbn [shr_m].
  destruct (Z.leb_spec (e + (d - 53)) (1024 - 53)); [f_equal; lia|lia].
Qed.

(** Rounding is blind to trailing zeros that are shifted out anyway. *)
Lemma rne_scale a u j :
0 <= u -> 0 <= j -> rne (a * 2 ^ j) (u + j) = rne a u.
Proof.
intros Hu Hj. unfold rne.
assert (HU : 0 < 2 ^ u) by (apply Z.pow_pos_nonneg; lia).
assert (HJ : 0 < 2 ^ j) by (apply Z.pow_pos_nonneg; lia).
rewrite Z.pow_add_r, Z.div_mul_cancel_r, Z.mul_mod_distr_r by lia.
rewrite Z.mul_assoc, <- Zmult_compare_compat_r by lia. reflexivity.
Qed.

(** Appending [k] zero bits multiplies by [2 ^ k]. *)
Lemma iter_xO (n k : positive) : Z.pos (Pos.iter xO n k) = Z.pos n * 2 ^ Z.pos k.
Proof.
induction k as [|k IH] using Pos.peano_ind.
- change (Z.pos n~0 = Z.pos n * 2). lia.
- rewrite Pos.iter_succ, Pos2Z.inj_succ, Z.pow_succ_r by lia.
  change (Z.pos (Pos.iter xO n k)~0) with (2 * Z.pos (Pos.iter xO n k)).
  rewrite IH. ring.
Qed.

(** [float(n)] for a positive [n] below [2 ^ 1022]: a finite double with a
  full mantissa; below [2 ^ 53] the conversion is exact. *)
Lemma of_int_pos (n : positive) :
let d := Z.pos (digits2_pos n) in
d <= 1022 ->
exists mz ez,
  Float.of_int (Z.pos n) = Ok (S754_finite false mz ez) /\
  Z.pos (digits2_pos mz) = 53 /\ d - 53 <= ez <= d - 52 /\
  (d <= 53 -> ez = d - 53 /\ Z.pos mz = Z.pos n * 2 ^ (53 - d)).
Proof.
intros d Hd. pose proof (digits2_bounds n) as Hn. fold d in Hn.
unfold Float.of_int, Float.prec, Float.emax, binary_normalize, binary_round, shl_align.
rewrite fexp_normal by lia. fold d.
destruct (Z.lt_trichotomy d 53) as [Hlt|[Heq|Hgt]].
- (* fewer than 53 bits: shifted left *)
  assert (Hs : d + 0 - 53 - 0 = Z.neg (Z.to_pos (53 - d))) by lia.
  rewrite Hs.
  set (mz := Pos.iter xO n (Z.to_pos (53 - d))).
  assert (Hmz : Z.pos mz = Z.pos n * 2 ^ (53 - d)).
  { unfold mz. rewrite iter_xO. f_equal. f_equal. lia. }
  assert (Hdz : Z.pos (digits2_pos mz) = 53).
  { apply digits2_unique. rewrite Hmz.
    assert (Hp : 0 < 2 ^ (53 - d)) by (apply Z.pow_pos_nonneg; lia).
    replace (2 ^ (53 - 1)) with (2 ^ (d - 1) * 2 ^ (53 - d))
      by (rewrite <- Z.pow_add_r by lia; f_equal; lia).
    replace (2 ^ 53) with (2 ^ d * 2 ^ (53 - d))
      by (rewrite <- Z.pow_add_r by lia; f_equal; lia).
    split; [apply Z.mul_le_mono_nonneg_r|apply Z.mul_lt_mono_pos_r]; lia. }
  rewrite round_aux_exact by lia.
  exists mz, (d + 0 - 53). repeat split; try lia.
- (* exactly 53 bits *)
  assert (Hs : d + 0 - 53 - 0 = 0) by lia. rewrite Hs.
  rewrite round_aux_exact by (fold d; lia).
  exists n, 0. repeat split; try lia. rewrite Heq. simpl. lia.
- (* more than 53 bits: rounded *)
  assert (Hs : d + 0 - 53 - 0 = Z.pos (Z.to_pos (d - 53))) by lia. rewrite Hs.
  rewrite round_aux_round by (fold d; lia). fold d. cbv zeta.
  pose proof (rne_range (Z.pos n) (d - 53) ltac:(lia)) as Hq.
  pose proof (top_bits (Z.pos n) d ltac:(lia) Hn) as Hdiv.
  destruct (Z.eqb_spec (rne (Z.pos n) (d - 53)) (2 ^ 53)) as [E|E].
  + exists (2 ^ 52)%positive, (0 + d - 52). repeat split; try lia.
  + exists (Z.to_pos (rne (Z.pos n) (d - 53))), (0 + d - 53).
    repeat split; try lia.
    apply digits2_unique. rewrite Z2Pos.id by lia. lia.
Qed.


(** The product of [0.8] and a finite double with a full mantissa. *)
Lemma mul_lit_0_8 (mz : positive) (ez : Z) :
Z.pos (digits2_pos mz) = 53 -> -900 <= ez <= 900 ->
let D := Z.pos (digits2_pos (7205759403792794 * mz)) in
105 <= D <= 106 /\
Float.mul Float.lit_0_8 (S754_finite false mz ez) =
  let q := rne (7205759403792794 * Z.pos mz) (D - 53) in
  if q =? 2 ^ 53 then S754_finite false (2 ^ 52)%positive (ez + D - 105)
  else S754_finite false (Z.to_pos q) (ez + D - 106).
Proof.
intros Hd He D.
pose proof (digits2_bounds mz) as Hm. rewrite Hd in Hm.
pose proof (digits2_bounds (7205759403792794 * mz)) as HP. fold D in HP.
rewrite Pos2Z.inj_mul in HP.
assert (HD : 105 <= D <= 106).
{ change (2 ^ (53 - 1)) with 4503599627370496 in Hm.
  change (2 ^ 53) with 9007199254740992 in Hm.
  split.
  - destruct (Z.le_gt_cases 105 D) as [|C]; [easy|exfalso].
    assert (2 ^ D <= 2 ^ 104) by (apply Z.pow_le_mono_r; lia).
    change (2 ^ 104) with 20282409603651670423947251286016 in *. lia.
  - destruct (Z.le_gt_cases D 106) as [|C]; [easy|exfalso].
    assert (2 ^ 106 <= 2 ^ (D - 1)) by (apply Z.pow_le_mono_r; lia).
    change (2 ^ 106) with 81129638414606681695789005144064 in *. lia. }
split; [exact HD|].
unfold Float.mul, Float.lit_0_8, Float.prec, Float.emax, SFmul.
cbn [xorb]. rewrite round_aux_round by (fold D; lia).
fold D. rewrite Pos2Z.inj_mul. cbv zeta.
destruct (_ =? _); f_equal; lia.
Qed.

(** [int] of a positive double with a negative exponent is a quotient. *)
Lemma to_int_finite (m : positive) (e : Z) :
e < 0 -> Float.to_int (S754_finite false m e) = Ok (Z.pos m / 2 ^ (- e)).
Proof.
intros He. destruct e as [|e|e]; try lia.
cbn [Float.to_int cond_Zopp]. now rewrite Z.shiftr_div_pow2 by lia.
Qed.

(** [int] of a positive double is defined and non-negative. *)
Lemma to_int_nonneg (m : positive) (e : Z) :
exists k, Float.to_int (S754_finite false m e) = Ok k /\ 0 <= k.
Proof.
eexists. split; [reflexivity|]. cbn [cond_Zopp].
destruct e; [apply Z.shiftl_nonneg|apply Z.shiftl_nonneg|apply Z.shiftr_nonneg]; lia.
Qed.

(** The arithmetic behind [int(0.8 * n)]: rounding [m * n / 2 ^ u], for the mantissa [m] of the literal, to the
  nearest integer and dropping the remaining [53 - u] fraction bits gives
  the floor of [4 * n / 5], as long as the error [2 * n / (5 * 2 ^ 53)] of
  the literal and half a unit in the last place stay below [1 / 5]. *)
Lemma rne_lit_0_8 (n u : Z) :
0 <= n -> 0 <= u <= 53 -> 4 * n + 5 * 2 ^ u < 2 ^ 54 ->
rne (7205759403792794 * n) u / 2 ^ (53 - u) = 4 * n / 5.
Proof.
intros Hn Hu Hsmall.
set (U := 2 ^ u) in *. set (T := 2 ^ (53 - u)). set (a := 7205759403792794 * n).
set (K := 4 * n / 5).
assert (HU : 0 < U) by (apply Z.pow_pos_nonneg; lia).
assert (HT : 0 < T) by (apply Z.pow_pos_nonneg; lia).
assert (HUT : U * T = 2 ^ 53)
  by (unfold U, T; rewrite <- Z.pow_add_r by lia; f_equal; lia).
change (2 ^ 53) with 9007199254740992 in HUT.
change (2 ^ 54) with 18014398509481984 in Hsmall.
assert (HK : 5 * K <= 4 * n < 5 * K + 5).
{ unfold K. pose proof (Z.mul_div_le (4 * n) 5 ltac:(lia)).
  pose proof (Z.mul_succ_div_gt (4 * n) 5 ltac:(lia)). lia. }
pose proof (Z.div_mod a U ltac:(lia)) as Ha.
pose proof (Z.mod_pos_bound a U HU) as Hr.
assert (HKUT : K * T * U = K * 9007199254740992) by (rewrite <- HUT; ring).
(* the rounded quotient is within half a unit of [a / U] *)
assert (Hq : 2 * (rne a u * U) <= 2 * a + U /\ a / U <= rne a u).
{ unfold rne. fold U.
  destruct (Z.compare_spec (2 * (a mod U)) U) as [E|E|E];
    [destruct (Z.even (a / U))| |]; lia. }
set (q := rne a u) in *. clearbody q.
symmetry. apply Z.div_unique with (q - T * K).
2: lia.
left. split.
- assert (K * T <= a / U); [|lia].
  apply Z.div_le_lower_bound; [lia|].
  replace (U * (K * T)) with (K * T * U) by ring. unfold a at 1. lia.
- destruct (Z.lt_ge_cases q (T * K + T)) as [|C]; [lia|exfalso].
  assert ((T * K + T) * U <= q * U) by (apply Z.mul_le_mono_nonneg_r; lia).
  replace ((T * K + T) * U) with (K * T * U + U * T) in * by ring.
  unfold a in *. lia.
Qed.

(** A number below [2 ^ k] has at most [k] digits. *)
Lemma digits2_le (n : positive) k : 0 <= k -> Z.pos n < 2 ^ k -> Z.pos (digits2_pos n) <= k.
Proof.
intros Hk Hn. pose proof (digits2_bounds n) as B.
destruct (Z.le_gt_cases (Z.pos (digits2_pos n)) k) as [|C]; [easy|exfalso].
assert (2 ^ k <= 2 ^ (Z.pos (digits2_pos n) - 1)) by (apply Z.pow_le_mono_r; lia).
lia.
Qed.

(** [int(0.8 * n)] raises nothing for a length a list can have. *)
Lemma n_train_of_total (n : nat) :
Z.of_nat n <= PY_SSIZE_T_MAX -> exists k, n_train_of n = Ok k /\ 0 <= k.
Proof.
unfold PY_SSIZE_T_MAX. intros Hn. unfold n_train_of, Float.mul_int.
destruct (Z.of_nat n) as [|p|p] eqn:E; try lia.
- exists 0. split; [reflexivity|lia].
- pose proof (digits2_le p 63 ltac:(lia) ltac:(lia)) as Hd.
  destruct (of_int_pos p ltac:(lia)) as (mz & ez & Hof & Hdz & Hez & _).
  rewrite Hof. cbn [mbind result_bind mret result_ret].
  pose proof (digits2_bounds p) as Hp.
  destruct (mul_lit_0_8 mz ez Hdz ltac:(lia)) as [_ Hmul]. rewrite Hmul.
  cbv zeta. destruct (_ =? _); apply to_int_nonneg.
Qed.

(** Below [3 * 2 ^ 49] lines, [int(0.8 * n)] is the floor of [4 * n / 5]. *)
Lemma n_train_of_exact (n : nat) :
Z.of_nat n < 3 * 2 ^ 49 -> n_train_of n = Ok (4 * Z.of_nat n / 5).
Proof.
intros Hn. unfold n_train_of, Float.mul_int.
destruct (Z.of_nat n) as [|p|p] eqn:E; try lia; [reflexivity|].
set (d := Z.pos (digits2_pos p)).
assert (Hd : d <= 51) by (apply digits2_le; lia).
pose proof (digits2_bounds p) as Hp. fold d in Hp.
destruct (of_int_pos p ltac:(fold d; lia)) as (mz & ez & Hof & Hdz & _ & Hex).
fold d in Hex. destruct (Hex ltac:(lia)) as [Hez Hmz]. subst ez.
rewrite Hof. cbn [mbind result_bind mret result_ret].
destruct (mul_lit_0_8 mz (d - 53) Hdz ltac:(lia)) as [HD Hmul]. rewrite Hmul.
set (D := Z.pos (digits2_pos (7205759403792794 * mz))) in *. cbv zeta.
assert (Hd1 : 1 <= d) by (unfold d; lia).
set (u := D + d - 106).
assert (Hq : rne (7205759403792794 * Z.pos mz) (D - 53) =
             rne (7205759403792794 * Z.pos p) u).
{ rewrite Hmz, Z.mul_assoc.
  replace (D - 53) with (u + (53 - d)) by (unfold u; lia).
  apply rne_scale; unfold u; lia. }
rewrite Hq.
assert (Hu : 2 ^ u <= 2 ^ 51) by (apply Z.pow_le_mono_r; unfold u; lia).
change (2 ^ 51) with 2251799813685248 in Hu.
pose proof (rne_lit_0_8 (Z.pos p) u ltac:(lia) ltac:(unfold u; lia) ltac:(lia)) as Hr.
destruct (Z.eqb_spec (rne (7205759403792794 * Z.pos p) u) (2 ^ 53)) as [Eq|Eq].
- rewrite to_int_finite by (unfold u in *; lia). f_equal.
  rewrite <- Hr, Eq.
  replace (- (d - 53 + D - 105)) with (52 - u) by (unfold u; lia).
  change (Z.pos (2 ^ 52)) with (2 ^ 52).
  rewrite <- !Z.pow_sub_r by (unfold u; lia). f_equal. lia.
- rewrite to_int_finite by (unfold u in *; lia). f_equal.
  rewrite <- Hr.
  pose proof (rne_range (7205759403792794 * Z.pos p) u ltac:(unfold u; lia)).
  assert (0 <= 7205759403792794 * Z.pos p / 2 ^ u)
    by (apply Z.div_pos; [lia|apply Z.pow_pos_nonneg; unfold u; lia]).
  rewrite Z2Pos.id.
  + f_equal. f_equal. unfold u. lia.
  + assert (1 <= 7205759403792794 * Z.pos p / 2 ^ u); [|lia].
    apply Z.div_le_lower_bound; [apply Z.pow_pos_nonneg; unfold u; lia|lia].
Qed.

(** At [3 * 2 ^ 49] lines the product rounds up to the next integer. *)
Lemma n_train_of_first_miss :
n_train_of (Z.to_nat 1688849860263936) = Ok 1351079888211149 /\
4 * 1688849860263936 / 5 = 1351079888211148 /\
1688849860263936 = 3 * 2 ^ 49.
Proof.
split; [|split; reflexivity].
unfold n_train_of. rewrite Z2Nat.id by lia. vm_compute. reflexivity.
Qed.

End FloatFacts.

(** ** The shuffle and the slices *)

Section ShuffleFacts.
Context {R : Random} {A : Type}.
Implicit Types x : list A.

Lemma swap_ok i j x :
  i < length x -> j < length x ->
  exists x', Seq.swap i j x = Ok x' /\ length x' = length x /\ x' ≡ₚ x.
Proof.
  intros Hi Hj. unfold Seq.swap.
  destruct (lookup_lt_is_Some_2 x i Hi) as [a Ha].
  destruct (lookup_lt_is_Some_2 x j Hj) as [b Hb].
  rewrite Ha, Hb. eexists. split; [reflexivity|]. split.
  - now rewrite !length_insert.
  - now apply Permutation_insert_swap.
Qed.

(** The loop of [shuffle] stays inside the list, so it never raises, and
    what it returns is a rearrangement of the list. *)
Lemma shuffle_from_ok i x g :
  i < length x \/ i = 0 ->
  exists x' g', shuffle_from i x g = Ok (x', g')
                /\ length x' = length x /\ x' ≡ₚ x.
Proof.
  revert x g. induction i as [|i IH]; intros x g Hi.
  - exists x, g. auto.
  - destruct Hi as [Hi|Hi]; [|discriminate]. cbn [shuffle_from].
    pose proof (randbelow_lt (S i + 1) g ltac:(lia)) as Hj.
    destruct (randbelow (S i + 1) g) as [j g']. cbn [fst] in Hj.
    destruct (swap_ok (S i) j x Hi ltac:(lia)) as (x1 & Hsw & Hlen & Hperm).
    rewrite Hsw. cbn [mbind result_bind].
    destruct (IH x1 g' ltac:(lia)) as (x' & g'' & Hr & Hlen' & Hperm').
    exists x', g''. rewrite Hr. split; [reflexivity|]. split.
    + congruence.
    + now rewrite Hperm'.
Qed.

Lemma shuffle_ok x g :
  exists x' g', shuffle x g = Ok (x', g') /\ length x' = length x /\ x' ≡ₚ x.
Proof.
  apply shuffle_from_ok. destruct x; simpl; [right|left]; lia.
Qed.

End ShuffleFacts.

Section SliceFacts.
Context {A : Type}.
Implicit Types x : list A.

Lemma slice_app x k : Seq.slice_to x k ++ Seq.slice_from x k = x.
Proof. apply take_drop. Qed.

Lemma clip_le len k : Seq.clip len k <= len.
Proof. unfold Seq.clip. destruct (Z.ltb_spec k 0); lia. Qed.

Lemma slice_to_length x k :
  (0 <= k <= Z.of_nat (length x))%Z ->
  Z.of_nat (length (Seq.slice_to x k)) = k.
Proof.
  intros Hk. unfold Seq.slice_to, Seq.clip.
  destruct (Z.ltb_spec k 0); [lia|]. rewrite length_take. lia.
Qed.

Lemma slice_from_length x k :
  (0 <= k <= Z.of_nat (length x))%Z ->
  Z.of_nat (length (Seq.slice_from x k)) = (Z.of_nat (length x) - k)%Z.
Proof.
  intros Hk. unfold Seq.slice_from, Seq.clip.
  destruct (Z.ltb_spec k 0); [lia|]. rewrite length_drop. lia.
Qed.

Lemma slice_lengths x k :
  length (Seq.slice_to x k) + length (Seq.slice_from x k) = length x.
Proof. rewrite <- length_app. now rewrite slice_app. Qed.

End SliceFacts.

(** ** The files of the cells *)

Lemma raw_file_eq : raw_file = ["data"; "finai_raw.jsonl"].
Proof. reflexivity. Qed.
Lemma train_dir_eq : train_dir = ["data"; "train"].
Proof. reflexivity. Qed.
Lemma test_dir_eq : test_dir = ["data"; "test"].
Proof. reflexivity. Qed.
Lemma train_file_eq : train_file = ["data"; "train"; "finai_train.jsonl"].
Proof. reflexivity. Qed.
Lemma test_file_eq : test_file = ["data"; "test"; "finai_test.jsonl"].
Proof. reflexivity. Qed.
Lemma config_file_eq : config_file = ["lora"; "finetune_configs.json"].
Proof. reflexivity. Qed.

Section FileFacts.
Context {R : Random}.
Implicit Types w : World R.

Lemma node_at_cons w part p : node_at w (part :: p) = fs w !! (part :: p).
Proof. reflexivity. Qed.

(** [mkdir(parents=True, exist_ok=True)] below an existing directory. *)
Lemma mkdir_ok w p :
  p <> [] ->
  node_at w (Paths.parent p) = Some Dir ->
  fs w !! p = None \/ fs w !! p = Some Dir ->
  mkdir true true p w = (Ok (), with_fs (<[p := Dir]> (fs w)) w).
Proof.
  intros Hp Hparent Hfree. unfold mkdir.
  assert (Hnode : node_at w p = fs w !! p) by (destruct p; [done|reflexivity]).
  assert (Hstep : forall d, mkdir_at d true true p w
                            = (Ok (), with_fs (<[p := Dir]> (fs w)) w)).
  { intros d. destruct d; cbn [mkdir_at]; unfold os_mkdir, parent_error;
      rewrite Hparent, Hnode;
      (destruct Hfree as [Hf|Hf]; rewrite Hf; [reflexivity|]);
      unfold is_dir; rewrite Hnode, Hf; cbn;
      (rewrite insert_id by exact Hf); destruct w; reflexivity. }
  apply Hstep.
Qed.

Lemma write_ok w p s :
  p <> [] ->
  node_at w (Paths.parent p) = Some Dir ->
  fs w !! p <> Some Dir ->
  write_text p s w = (Ok (), with_fs (<[p := File s]> (fs w)) w).
Proof.
  intros Hp Hparent Hfree. unfold write_text, parent_error.
  assert (Hnode : node_at w p = fs w !! p) by (destruct p; [done|reflexivity]).
  rewrite Hparent, Hnode.
  destruct (fs w !! p) as [[c|]|]; [reflexivity|done|reflexivity].
Qed.

End FileFacts.

(** ** The runs of cell 5 *)

Section SplitterFacts.
Context {R : Random}.
Implicit Types w : World R.

Lemma shuffle_short (lines : list string) g :
  length lines < 2 -> shuffle lines g = Ok (lines, g).
Proof.
  intros Hn. unfold shuffle.
  replace (length lines - 1) with 0 by lia. reflexivity.
Qed.

(** What the shuffle and the cut compute, for a list Python can hold
    (at most [PY_SSIZE_T_MAX] items). *)
Lemma split_lines_run lines w :
  (Z.of_nat (length lines) <= PY_SSIZE_T_MAX)%Z ->
  exists sh g k,
    shuffle lines (seed 42) = Ok (sh, g)
    /\ length sh = length lines /\ sh ≡ₚ lines
    /\ n_train_of (length lines) = Ok k /\ (0 <= k)%Z
    /\ split_lines lines w
       = (Ok (length lines, Seq.slice_to sh k, Seq.slice_from sh k),
          with_rng g w).
Proof.
  intros Hn.
  destruct (shuffle_ok lines (seed 42)) as (sh & g & Hsh & Hlen & Hperm).
  destruct (n_train_of_total (length lines) Hn) as (k & Hk & Hk0).
  exists sh, g, k. repeat (split; [assumption|]).
  unfold split_lines, mbind, M_bind, bind, random_seed, random_shuffle.
  cbn [rng with_rng]. rewrite Hsh. unfold lift. rewrite Hlen, Hk.
  reflexivity.
Qed.

(** The run of the cell when the raw file is there and nothing is in the
    way of its outputs. *)
Lemma cell5_run w c :
  fs w !! raw_file = Some (File c) ->
  outputs_writable w ->
  let lines := Text.splitlines (Text.universal_newlines c) in
  (Z.of_nat (length lines) <= PY_SSIZE_T_MAX)%Z ->
  exists sh g k,
    shuffle lines (seed 42) = Ok (sh, g)
    /\ length sh = length lines /\ sh ≡ₚ lines
    /\ n_train_of (length lines) = Ok k /\ (0 <= k)%Z
    /\ let train_lines := Seq.slice_to sh k in
       let test_lines := Seq.slice_from sh k in
       cell5 w =
       (Ok (Some (train_lines, test_lines)),
        {| fs := fs_after_split (fs w) train_lines test_lines;
           stdout := stdout w ++ [split_message (length lines)
                                    (length train_lines) (length test_lines)];
           rng := g |}).
Proof.
  intros Hraw (Hdata & Htrain & Htest & Htf & Hsf) lines Hn.
  destruct (split_lines_run lines w Hn) as (sh & g & k & Hsh & Hlen & Hperm & Hk & Hk0 & Hrun).
  exists sh, g, k. repeat (split; [assumption|]).
  intros train_lines test_lines.
  unfold cell5, mbind, M_bind, bind, path_exists, read_text.
  rewrite raw_file_eq in *. rewrite node_at_cons, Hraw.
  rewrite bool_decide_eq_true_2 by eauto. cbv beta iota.
  rewrite node_at_cons, Hraw. fold lines. rewrite Hrun.
  fold train_lines test_lines. cbv beta iota.
  rewrite train_dir_eq, test_dir_eq, train_file_eq, test_file_eq in *.
  change (Paths.Path "data") with ["data"] in Hdata.
  set (w1 := with_rng g w).
  rewrite (mkdir_ok w1 ["data"; "train"]); [|done|exact Hdata|exact Htrain].
  set (w2 := with_fs _ w1).
  rewrite (mkdir_ok w2 ["data"; "test"]); [|done| |].
  2: { cbn. rewrite lookup_insert_ne by done. exact Hdata. }
  2: { cbn. rewrite lookup_insert_ne by done. exact Htest. }
  set (w3 := with_fs _ w2).
  rewrite (write_ok w3 ["data"; "train"; "finai_train.jsonl"]); [|done| |].
  2: { cbn. rewrite lookup_insert_ne by done. apply lookup_insert_eq. }
  2: { cbn. rewrite !lookup_insert_ne by done. exact Htf. }
  set (w4 := with_fs _ w3).
  rewrite (write_ok w4 ["data"; "test"; "finai_test.jsonl"]); [|done| |].
  2: { cbn. rewrite lookup_insert_ne by done. apply lookup_insert_eq. }
  2: { cbn. rewrite !lookup_insert_ne by done. exact Hsf. }
  reflexivity.
Qed.

(** The run of the cell when the raw file is not there. *)
Lemma cell5_missing w :
  fs w !! raw_file = None ->
  cell5 w = (Ok None, {| fs := fs w; stdout := stdout w ++ [missing_message];
                         rng := rng w |}).
Proof.
  intros Hraw. unfold cell5, mbind, M_bind, bind, path_exists.
  rewrite raw_file_eq in *. rewrite node_at_cons, Hraw.
  rewrite bool_decide_eq_false_2 by (intros [? ?]; discriminate).
  reflexivity.
Qed.

End SplitterFacts.

(** ** The runs of cell 7 *)

Section MergerFacts.
Context {R : Random} {J : JsonCodec}.
Implicit Types w : World R.

(** The run of the cell on a configuration file that holds a mapping. *)
Lemma cell7_run w c configs :
  fs w !! config_file = Some (File c) ->
  json_loads (Text.universal_newlines c) = Some (JObj configs) ->
  fs w !! Paths.Path "lora" = Some Dir ->
  cell7 w = (Ok (), with_fs (<[config_file :=
               File (json_dumps 2 (JObj (merge_config configs)))]> (fs w)) w).
Proof.
  intros Hfile Hload Hlora.
  unfold cell7, mbind, M_bind, bind, read_text, lift, json_load.
  rewrite config_file_eq in *. rewrite node_at_cons, Hfile, Hload.
  cbn [setitem]. apply write_ok; [done|exact Hlora|].
  rewrite Hfile. discriminate.
Qed.

(** With a codec that reads back what it wrote, a second run of the cell
    finds the merged mapping and leaves the world as the first run left
    it. *)
Lemma cell7_twice w c configs :
  fs w !! config_file = Some (File c) ->
  json_loads (Text.universal_newlines c) = Some (JObj configs) ->
  fs w !! Paths.Path "lora" = Some Dir ->
  json_loads (Text.universal_newlines
                (json_dumps 2 (JObj (merge_config configs))))
    = Some (JObj (merge_config configs)) ->
  exists w1, cell7 w = (Ok (), w1) /\ cell7 w1 = (Ok (), w1).
Proof.
  intros Hfile Hload Hlora Hback.
  rewrite (cell7_run w c configs Hfile Hload Hlora).
  eexists. split; [reflexivity|].
  erewrite cell7_run; [| |exact Hback|].
  - unfold with_fs. cbn [fs stdout rng]. f_equal. f_equal.
    unfold merge_config. now rewrite !insert_insert_eq.
  - cbn [fs with_fs]. apply lookup_insert_eq.
  - cbn [fs with_fs]. rewrite config_file_eq.
    rewrite lookup_insert_ne by done. exact Hlora.
Qed.

End MergerFacts.

(** * The claims *)

Section SplitterClaims.
Context {R : Random}.
Implicit Types w : World R.

(** C1. The split is a partition. When the raw file exists and holds [n]
    lines (as many as a list can hold), and nothing is in the way of the
    outputs, cell 5 ends normally with [train_lines] and [test_lines]
    whose lengths add up to [n] and whose concatenation is a permutation
    of the input lines: no line is dropped or duplicated. The two files
    hold exactly these partitions. *)
Theorem split_is_partition w c :
  fs w !! raw_file = Some (File c) ->
  outputs_writable w ->
  let lines := Text.splitlines (Text.universal_newlines c) in
  (Z.of_nat (length lines) <= PY_SSIZE_T_MAX)%Z ->
  exists train_lines test_lines w',
    cell5 w = (Ok (Some (train_lines, test_lines)), w')
    /\ length train_lines + length test_lines = length lines
    /\ train_lines ++ test_lines ≡ₚ lines
    /\ fs w' !! train_file = Some (File (dump_lines train_lines))
    /\ fs w' !! test_file = Some (File (dump_lines test_lines)).
Proof.
  intros Hraw Hw lines Hn.
  destruct (cell5_run w c Hraw Hw Hn)
    as (sh & g & k & Hsh & Hlen & Hperm & Hk & Hk0 & Hcell).
  eexists _, _, _. split; [exact Hcell|]. split; [|split].
  - rewrite slice_lengths. exact Hlen.
  - rewrite slice_app. exact Hperm.
  - cbn [fs]. unfold fs_after_split.
    rewrite train_file_eq, test_file_eq. split.
    + rewrite lookup_insert_ne by done. apply lookup_insert_eq.
    + apply lookup_insert_eq.
Qed.

(** C3, as amended. For every input of fewer than [3 * 2 ^ 49] lines,
    [int(0.8 * n)], computed in binary64, is the floor of [4 * n / 5];
    the training lines are that many leading items of the shuffled list
    and the test lines are the [n - floor(4 * n / 5)] items after them. *)
Theorem cut_at_floor w lines :
  (Z.of_nat (length lines) < 3 * 2 ^ 49)%Z ->
  let n := Z.of_nat (length lines) in
  exists sh g train_lines test_lines w',
    shuffle lines (seed 42) = Ok (sh, g)
    /\ n_train_of (length lines) = Ok (4 * n / 5)%Z
    /\ split_lines lines w = (Ok (length lines, train_lines, test_lines), w')
    /\ train_lines = take (length train_lines) sh
    /\ test_lines = drop (length train_lines) sh
    /\ Z.of_nat (length train_lines) = (4 * n / 5)%Z
    /\ Z.of_nat (length test_lines) = (n - 4 * n / 5)%Z.
Proof.
  intros Hn n.
  destruct (split_lines_run lines w ltac:(unfold PY_SSIZE_T_MAX; lia))
    as (sh & g & k & Hsh & Hlen & Hperm & Hk & Hk0 & Hrun).
  rewrite (n_train_of_exact _ Hn) in Hk. injection Hk as <-. fold n in Hrun.
  assert (Hfl : (0 <= 4 * n / 5 <= Z.of_nat (length sh))%Z).
  { rewrite Hlen. fold n. split; [apply Z.div_pos; lia|].
    apply Z.div_le_upper_bound; lia. }
  pose proof (slice_to_length sh _ Hfl) as Ht.
  pose proof (slice_from_length sh _ Hfl) as Hs.
  rewrite Hlen in Hs. fold n in Hs.
  exists sh, g, (Seq.slice_to sh (4 * n / 5)), (Seq.slice_from sh (4 * n / 5)),
    (with_rng g w).
  repeat (split; [first [assumption | now apply n_train_of_exact]|]).
  split; [|split; [|split; assumption]].
  - unfold Seq.slice_to at 1. f_equal. unfold Seq.slice_to. rewrite length_take.
    pose proof (clip_le (length sh) (4 * n / 5)). lia.
  - unfold Seq.slice_from at 1. f_equal. unfold Seq.slice_to. rewrite length_take.
    pose proof (clip_le (length sh) (4 * n / 5)). lia.
Qed.

(** C4. When the raw file does not exist, cell 5 ends normally without
    binding a split: it prints its message and leaves the files, the
    directories and the generator as they were. *)
Theorem missing_input_soft_failure w :
  fs w !! raw_file = None ->
  exists w', cell5 w = (Ok None, w')
    /\ fs w' = fs w
    /\ stdout w' = stdout w ++ [missing_message]
    /\ rng w' = rng w.
Proof.
  intros Hraw. rewrite (cell5_missing w Hraw). eexists. split; [reflexivity|].
  cbn. auto.
Qed.

(** C6. The split is a function of the input lines alone: whatever the
    worlds of two invocations are (the state of the generator before the
    cell, the files, the output so far), the same lines give the same
    train partition and the same test partition, because the cell seeds
    the generator with 42 before it shuffles. *)
Theorem split_deterministic lines w1 w2 :
  fst (split_lines lines w1) = fst (split_lines lines w2).
Proof.
  unfold split_lines, mbind, M_bind, bind, random_seed, random_shuffle.
  cbn [rng with_rng].
  destruct (shuffle lines (seed 42)) as [[sh g]|e]; [|reflexivity].
  unfold lift. destruct (n_train_of (length sh)); reflexivity.
Qed.

(** Two runs of the cell on checkouts with the same raw file bind the
    same partitions and write the same two files. *)
Corollary cell5_deterministic w1 w2 c :
  fs w1 !! raw_file = Some (File c) ->
  fs w2 !! raw_file = Some (File c) ->
  outputs_writable w1 -> outputs_writable w2 ->
  (Z.of_nat (length (Text.splitlines (Text.universal_newlines c)))
     <= PY_SSIZE_T_MAX)%Z ->
  fst (cell5 w1) = fst (cell5 w2)
  /\ fs (snd (cell5 w1)) !! train_file = fs (snd (cell5 w2)) !! train_file
  /\ fs (snd (cell5 w1)) !! test_file = fs (snd (cell5 w2)) !! test_file.
Proof.
  intros Hr1 Hr2 Hw1 Hw2 Hn.
  destruct (cell5_run w1 c Hr1 Hw1 Hn)
    as (sh & g & k & Hsh & _ & _ & Hk & _ & Hc1).
  destruct (cell5_run w2 c Hr2 Hw2 Hn)
    as (sh' & g' & k' & Hsh' & _ & _ & Hk' & _ & Hc2).
  assert (sh' = sh /\ g' = g /\ k' = k) as (-> & -> & ->)
    by (repeat split; congruence).
  rewrite Hc1, Hc2. cbn [fst snd fs]. unfold fs_after_split.
  rewrite train_file_eq, test_file_eq.
  split; [reflexivity|]. split.
  - now rewrite !(lookup_insert_ne _ ["data"; "test"; "finai_test.jsonl"]),
      !lookup_insert_eq by done.
  - now rewrite !lookup_insert_eq.
Qed.

(** C7, as amended. Each output file holds its partition's lines joined
    by newlines, with one newline after them. For an input of fewer than
    two lines the train partition is empty and the test partition holds
    the input lines; for an empty input both partitions are empty and
    both files hold the single newline. *)
Theorem outputs_of_small_inputs w c :
  fs w !! raw_file = Some (File c) ->
  outputs_writable w ->
  let lines := Text.splitlines (Text.universal_newlines c) in
  (Z.of_nat (length lines) <= PY_SSIZE_T_MAX)%Z ->
  exists train_lines test_lines w',
    cell5 w = (Ok (Some (train_lines, test_lines)), w')
    /\ fs w' !! train_file
       = Some (File (Text.join Text.newline train_lines +:+ Text.newline))
    /\ fs w' !! test_file
       = Some (File (Text.join Text.newline test_lines +:+ Text.newline))
    /\ (length lines < 2 -> train_lines = [] /\ test_lines = lines)
    /\ (c = "" -> train_lines = [] /\ test_lines = []
                  /\ fs w' !! train_file = Some (File Text.newline)
                  /\ fs w' !! test_file = Some (File Text.newline)).
Proof.
  intros Hraw Hw lines Hn.
  destruct (cell5_run w c Hraw Hw Hn)
    as (sh & g & k & Hsh & Hlen & _ & Hk & Hk0 & Hcell).
  fold lines in Hsh, Hk, Hlen.
  assert (Htf : forall f a b,
    fs_after_split f a b !! train_file = Some (File (dump_lines a))).
  { intros. unfold fs_after_split. rewrite train_file_eq, test_file_eq.
    rewrite lookup_insert_ne by done. apply lookup_insert_eq. }
  assert (Hsf : forall f a b,
    fs_after_split f a b !! test_file = Some (File (dump_lines b))).
  { intros. unfold fs_after_split. apply lookup_insert_eq. }
  assert (Hsmall : length lines < 2 ->
    Seq.slice_to sh k = [] /\ Seq.slice_from sh k = lines).
  { intros Hlt. rewrite (shuffle_short lines _ Hlt) in Hsh.
    injection Hsh as <- <-.
    rewrite n_train_of_exact in Hk by lia.
    assert (k = 0%Z) as ->.
    { injection Hk as <-. apply Z.div_small. lia. }
    split; reflexivity. }
  eexists _, _, _. split; [exact Hcell|]. cbn [fs].
  split; [apply Htf|]. split; [apply Hsf|]. split; [exact Hsmall|].
  intros ->. destruct (Hsmall ltac:(cbn; lia)) as [E1 E2].
  rewrite Htf, Hsf, E1, E2. repeat split; reflexivity.
Qed.

(** C10. The train partition followed by the test partition is the
    shuffled list itself, in its order: the output order is the order the
    seed-42 shuffle leaves the input lines in (for the empty input too). *)
Theorem train_then_test_is_shuffle w lines :
  (Z.of_nat (length lines) <= PY_SSIZE_T_MAX)%Z ->
  exists sh g train_lines test_lines w',
    shuffle lines (seed 42) = Ok (sh, g)
    /\ split_lines lines w = (Ok (length lines, train_lines, test_lines), w')
    /\ train_lines ++ test_lines = sh.
Proof.
  intros Hn.
  destruct (split_lines_run lines w Hn)
    as (sh & g & k & Hsh & Hlen & Hperm & Hk & Hk0 & Hrun).
  exists sh, g, (Seq.slice_to sh k), (Seq.slice_from sh k), (with_rng g w).
  split; [exact Hsh|]. split; [exact Hrun|]. apply slice_app.
Qed.

End SplitterClaims.

Section MergerClaims.
Context {R : Random} {J : JsonCodec}.
Implicit Types w : World R.

(** C5. The merge touches one key. On a configuration file that holds a
    mapping, cell 7 writes back the mapping with [merged_key] set to
    [merged_entry]; every other key has the value it had, and every other
    file is as it was. *)
Theorem merge_touches_one_key w c configs :
  fs w !! config_file = Some (File c) ->
  json_loads (Text.universal_newlines c) = Some (JObj configs) ->
  fs w !! Paths.Path "lora" = Some Dir ->
  exists w',
    cell7 w = (Ok (), w')
    /\ fs w' !! config_file
       = Some (File (json_dumps 2 (JObj (merge_config configs))))
    /\ merge_config configs !! merged_key = Some merged_entry
    /\ (forall k, k <> merged_key -> merge_config configs !! k = configs !! k)
    /\ (forall p, p <> config_file -> fs w' !! p = fs w !! p).
Proof.
  intros Hfile Hload Hlora. rewrite (cell7_run w c configs Hfile Hload Hlora).
  eexists. split; [reflexivity|]. cbn [fs with_fs]. unfold merge_config.
  split; [apply lookup_insert_eq|]. split; [apply lookup_insert_eq|].
  split; intros ? ?; now apply lookup_insert_ne.
Qed.

(** C8. A malformed configuration is fatal and costs nothing. When the
    configuration file does not hold a mapping, the cell ends with an
    exception, [JSONDecodeError] for a text that is not JSON and
    [TypeError] for a JSON value that is not a dict, and the world is the
    one it started in: nothing is written. *)
Theorem malformed_config_is_fatal w c :
  fs w !! config_file = Some (File c) ->
  (forall configs,
     json_loads (Text.universal_newlines c) <> Some (JObj configs)) ->
  exists e, cell7 w = (Raise e, w) /\ (e = JSONDecodeError \/ e = TypeError).
Proof.
  intros Hfile Hbad.
  unfold cell7, mbind, M_bind, bind, read_text, lift, json_load.
  rewrite config_file_eq in *. rewrite node_at_cons, Hfile.
  destruct (json_loads (Text.universal_newlines c)) as [v|] eqn:Hload.
  - exists TypeError. destruct v; try (split; [reflexivity|now right]).
    now destruct (Hbad m).
  - exists JSONDecodeError. split; [reflexivity|now left].
Qed.

End MergerClaims.

(** C9. The merge is idempotent: on the mapping, merging twice is merging
    once; and on any value [json.load] can return, the item assignment of
    cell 7 done twice ends as it ends done once (with the same mapping, or
    with the same [TypeError]). *)
Theorem merge_idempotent (configs : gmap string json) (v : json) :
  merge_config (merge_config configs) = merge_config configs
  /\ (setitem v merged_key merged_entry
        ≫= (fun v' => setitem v' merged_key merged_entry))
     = setitem v merged_key merged_entry.
Proof.
  split.
  - unfold merge_config. apply insert_insert_eq.
  - destruct v; try reflexivity. cbn. now rewrite insert_insert_eq.
Qed.

(** C2, on the code. The key cell 9 hands to [finetune.py] is not the key
    cell 7 merges, so the merge leaves whatever the mapping held under the
    key of cell 9 (nothing, when the mapping was empty); and the dataset path of the merged entry, which the
    fine-tuning program resolves from [lora], names
    [data/train/competition_train.jsonl], not the train file the splitter
    writes. With the file name of the splitter the same path would name
    the train file. *)
Theorem finetune_key_not_merged :
  finetune_key = "competition_llama_3_1_8b_8bits_r8_lora"
  /\ merged_key = "finai_llama_3_1_8b_8bits_r8_lora"
  /\ finetune_key <> merged_key
  /\ (forall configs : gmap string json,
        merge_config configs !! finetune_key = configs !! finetune_key)
  /\ merge_config ∅ !! finetune_key = None
  /\ dataset_path merged_entry = Some "../data/train/competition_train.jsonl"
  /\ dataset_file "../data/train/competition_train.jsonl"
     = ["data"; "train"; "competition_train.jsonl"]
  /\ dataset_file "../data/train/competition_train.jsonl" <> train_file
  /\ dataset_file "../data/train/finai_train.jsonl" = train_file.
Proof.
  repeat split; try reflexivity; try discriminate.
  intros configs. unfold merge_config. now apply lookup_insert_ne.
Qed.

(** * Runs on the example worlds *)

(** The generator is CPython's: after [random.seed(42)], the first three
    values of [random.getrandbits(32)]. *)
Example mt19937_first_words :
  let s0 := MT19937.seed 42 in
  let (a, s1) := MT19937.getrandbits 32 s0 in
  let (b, s2) := MT19937.getrandbits 32 s1 in
  let (c, _) := MT19937.getrandbits 32 s2 in
  [a; b; c] = [2746317213; 478163327; 107420369]%Z.
Proof. vm_compute. reflexivity. Qed.

(** Ten lines, seed 42: eight lines for fine-tuning, two for testing. *)
Example ten_lines_split :
  let (r, w') := cell5 (Examples.with_raw Examples.ten_lines) in
  r = Ok (Some (["h"; "d"; "c"; "i"; "f"; "g"; "j"; "e"], ["a"; "b"]))
  /\ stdout w' = ["Split 10 examples into 8 examples for fine-tuning and 2 examples for testing"]
  /\ fs w' !! test_file = Some (File (String "a" (String Text.LF (String "b" (String Text.LF ""))))).
Proof. vm_compute. repeat split; reflexivity. Qed.

(** A configuration with the entry [m1]: after the merge the file reads
    back as the mapping with [m1] untouched and the new entry beside it. *)
Example merged_file_reads_back :
  let (r, w') := cell7 (J := mini_json) (Examples.with_config Examples.one_entry_text) in
  r = Ok ()
  /\ (match fs w' !! config_file with
      | Some (File text) => json_loads (JsonCodec := mini_json) text
      | _ => None
      end) = Some (JObj (merge_config Examples.one_entry))
  /\ merge_config Examples.one_entry !! "m1" = Examples.one_entry !! "m1".
Proof. vm_compute. repeat split; reflexivity. Qed.

(** A text that is not JSON: the decoder raises. *)
Example not_json_is_fatal :
  fst (cell7 (J := mini_json) (Examples.with_config "{oops"))
  = Raise JSONDecodeError.
Proof. vm_compute. reflexivity. Qed.

Lemma ten_lines_writable :
  outputs_writable (Examples.with_raw Examples.ten_lines).
Proof.
  repeat split; vm_compute;
    first [reflexivity | left; reflexivity | discriminate].
Defined.

Lemma empty_raw_writable : outputs_writable (Examples.with_raw "").
Proof.
  repeat split; vm_compute;
    first [reflexivity | left; reflexivity | discriminate].
Defined.

(** C1 on the ten-line example. *)
Lemma split_is_partition_witness :
  let w := Examples.with_raw Examples.ten_lines in
  let lines := Text.splitlines (Text.universal_newlines Examples.ten_lines) in
  fs w !! raw_file = Some (File Examples.ten_lines)
  /\ outputs_writable w
  /\ (Z.of_nat (length lines) <= PY_SSIZE_T_MAX)%Z
  /\ exists train_lines test_lines w',
       cell5 w = (Ok (Some (train_lines, test_lines)), w')
       /\ length train_lines + length test_lines = length lines
       /\ train_lines ++ test_lines ≡ₚ lines
       /\ fs w' !! train_file = Some (File (dump_lines train_lines))
       /\ fs w' !! test_file = Some (File (dump_lines test_lines)).
Proof.
  intros w lines.
  assert (H1 : fs w !! raw_file = Some (File Examples.ten_lines))
    by (vm_compute; reflexivity).
  assert (H3 : (Z.of_nat (length lines) <= PY_SSIZE_T_MAX)%Z)
    by (vm_compute; discriminate).
  split; [exact H1|]. split; [exact ten_lines_writable|]. split; [exact H3|].
  exact (split_is_partition w Examples.ten_lines H1 ten_lines_writable H3).
Defined.

(** C3, as amended, on ten lines. *)
Lemma cut_at_floor_witness :
  let w := Examples.with_raw Examples.ten_lines in
  let lines := Text.splitlines (Text.universal_newlines Examples.ten_lines) in
  (Z.of_nat (length lines) < 3 * 2 ^ 49)%Z
  /\ exists sh g train_lines test_lines w',
       shuffle lines (seed 42) = Ok (sh, g)
       /\ n_train_of (length lines) = Ok 8%Z
       /\ split_lines lines w = (Ok (length lines, train_lines, test_lines), w')
       /\ train_lines = take (length train_lines) sh
       /\ test_lines = drop (length train_lines) sh
       /\ Z.of_nat (length train_lines) = 8%Z
       /\ Z.of_nat (length test_lines) = 2%Z.
Proof.
  intros w lines.
  assert (H : (Z.of_nat (length lines) < 3 * 2 ^ 49)%Z)
    by (vm_compute; reflexivity).
  split; [exact H|]. exact (cut_at_floor w lines H).
Defined.

(** C3 as stated fails at [3 * 2 ^ 49] lines: there [0.8 * n] rounds up to
    the next integer, and the train partition has one line more than the
    floor of [4 * n / 5]. *)
Lemma cut_above_floor_at_3_2_49 :
  let n := 1688849860263936%Z in
  let lines := Examples.empty_lines n in
  n = (3 * 2 ^ 49)%Z
  /\ Z.of_nat (length lines) = n
  /\ n_train_of (length lines) = Ok (4 * n / 5 + 1)%Z
  /\ exists train_lines test_lines w',
       split_lines lines (Examples.world_of [])
         = (Ok (length lines, train_lines, test_lines), w')
       /\ Z.of_nat (length train_lines) = (4 * n / 5 + 1)%Z
       /\ Z.of_nat (length train_lines) <> (4 * n / 5)%Z.
Proof.
  intros n lines. subst lines n. unfold Examples.empty_lines.
  destruct n_train_of_first_miss as (Hmiss & Hfloor & Hpow).
  assert (HN : Z.of_nat (Z.to_nat 1688849860263936) = 1688849860263936%Z)
    by (apply Z2Nat.id; lia).
  rewrite Hfloor. change (1351079888211148 + 1)%Z with 1351079888211149%Z.
  (* the count as a number of its own: it is never written out in unary *)
  set (N := Z.to_nat 1688849860263936) in *. clearbody N.
  rewrite repeat_length.
  split; [exact Hpow|]. split; [exact HN|]. split; [exact Hmiss|].
  destruct (split_lines_run (repeat "" N) (Examples.world_of []))
    as (sh & g & k & Hsh & Hl & _ & Hk' & Hk0 & Hrun).
  { rewrite repeat_length, HN. unfold PY_SSIZE_T_MAX. lia. }
  rewrite repeat_length in Hk', Hl, Hrun. rewrite Hmiss in Hk'.
  injection Hk' as <-.
  assert (Hcount : Z.of_nat (length (Seq.slice_to sh 1351079888211149))
                   = 1351079888211149%Z).
  { apply slice_to_length. rewrite Hl, HN. lia. }
  eexists _, _, _. split; [exact Hrun|]. split; [exact Hcount|].
  rewrite Hcount. lia.
Qed.

(** C4 on a checkout without the raw file. *)
Lemma missing_input_soft_failure_witness :
  let w := Examples.world_of [] in
  fs w !! raw_file = None
  /\ exists w', cell5 w = (Ok None, w')
       /\ fs w' = fs w
       /\ stdout w' = stdout w ++ [missing_message]
       /\ rng w' = rng w.
Proof.
  intros w.
  assert (H : fs w !! raw_file = None) by (vm_compute; reflexivity).
  split; [exact H|]. exact (missing_input_soft_failure w H).
Defined.

(** C5 on the one-entry configuration. *)
Lemma merge_touches_one_key_witness :
  let w := Examples.with_config Examples.one_entry_text in
  exists w',
    cell7 (J := mini_json) w = (Ok (), w')
    /\ fs w' !! config_file
       = Some (File (json_dumps (JsonCodec := mini_json) 2
                       (JObj (merge_config Examples.one_entry))))
    /\ merge_config Examples.one_entry !! merged_key = Some merged_entry
    /\ (forall k, k <> merged_key ->
          merge_config Examples.one_entry !! k = Examples.one_entry !! k)
    /\ (forall p, p <> config_file -> fs w' !! p = fs w !! p).
Proof.
  intros w.
  assert (H1 : fs w !! config_file = Some (File Examples.one_entry_text))
    by (vm_compute; reflexivity).
  assert (H2 : json_loads (JsonCodec := mini_json)
                 (Text.universal_newlines Examples.one_entry_text)
               = Some (JObj Examples.one_entry))
    by (vm_compute; reflexivity).
  assert (H3 : fs w !! Paths.Path "lora" = Some Dir)
    by (vm_compute; reflexivity).
  exact (merge_touches_one_key (J := mini_json) w Examples.one_entry_text
           Examples.one_entry H1 H2 H3).
Defined.

(** C7, as amended, on the empty raw file. *)
Lemma outputs_of_small_inputs_witness :
  let w := Examples.with_raw "" in
  exists w',
    cell5 w = (Ok (Some ([], [])), w')
    /\ fs w' !! train_file = Some (File Text.newline)
    /\ fs w' !! test_file = Some (File Text.newline).
Proof.
  intros w.
  assert (H1 : fs w !! raw_file = Some (File "")) by (vm_compute; reflexivity).
  assert (H3 : (Z.of_nat (length (Text.splitlines (Text.universal_newlines "")))
                <= PY_SSIZE_T_MAX)%Z) by (vm_compute; discriminate).
  destruct (outputs_of_small_inputs w "" H1 empty_raw_writable H3)
    as (tr & te & w' & Hc & _ & _ & _ & He).
  destruct (He eq_refl) as (-> & -> & Ht & Hs).
  exists w'. split; [exact Hc|]. split; [exact Ht|exact Hs].
Defined.

(** C7 as stated fails on one line: [int(0.8 * 1)] is 0, so the one line
    goes to the test partition and the train partition is the empty one. *)
Lemma single_line_lands_in_test :
  let w := Examples.with_raw "only" in
  length (Text.splitlines (Text.universal_newlines "only")) = 1
  /\ fst (cell5 w) = Ok (Some ([], ["only"]))
  /\ fs (snd (cell5 w)) !! test_file
     = Some (File (String.append "only" Text.newline))
  /\ fs (snd (cell5 w)) !! train_file = Some (File Text.newline).
Proof. vm_compute. repeat split; reflexivity. Qed.

(** C8 on a configuration file that holds a list. *)
Lemma malformed_config_is_fatal_witness :
  let w := Examples.with_config "[1, 2]" in
  exists e, cell7 (J := mini_json) w = (Raise e, w)
            /\ (e = JSONDecodeError \/ e = TypeError).
Proof.
  intros w.
  assert (H1 : fs w !! config_file = Some (File "[1, 2]"))
    by (vm_compute; reflexivity).
  assert (H2 : forall configs,
             json_loads (JsonCodec := mini_json)
               (Text.universal_newlines "[1, 2]") <> Some (JObj configs))
    by (intros configs; vm_compute; discriminate).
  exact (malformed_config_is_fatal (J := mini_json) w "[1, 2]" H1 H2).
Defined.

(** C10 on the ten-line example. *)
Lemma train_then_test_is_shuffle_witness :
  let w := Examples.with_raw Examples.ten_lines in
  let lines := Text.splitlines (Text.universal_newlines Examples.ten_lines) in
  exists sh g train_lines test_lines w',
    shuffle lines (seed 42) = Ok (sh, g)
    /\ split_lines lines w = (Ok (length lines, train_lines, test_lines), w')
    /\ train_lines ++ test_lines = sh.
Proof.
  intros w lines.
  assert (H : (Z.of_nat (length lines) <= PY_SSIZE_T_MAX)%Z)
    by (vm_compute; discriminate).
  exact (train_then_test_is_shuffle w lines H).
Defined.

(** * Further properties of the cells *)

Section Frames.
Context {R : Random}.
Implicit Types w : World R.

Global Instance same_outside_refl S : Reflexive (same_outside (R := R) S).
Proof. intros w q _. reflexivity. Qed.
Global Instance same_outside_trans S : Transitive (same_outside (R := R) S).
Proof. intros w1 w2 w3 H12 H23 q Hq. now rewrite (H23 q Hq), (H12 q Hq). Qed.
Global Instance nothing_lost_refl S : Reflexive (nothing_lost (R := R) S).
Proof. intros w q x _ H. exact H. Qed.
Global Instance nothing_lost_trans S : Transitive (nothing_lost (R := R) S).
Proof. intros w1 w2 w3 H12 H23 q x Hq H. eauto. Qed.

Lemma keeps_bind (Rel : World R -> World R -> Prop) `{!Transitive Rel}
    {A B} (c : M R A) (k : A -> M R B) :
  keeps Rel c -> (forall a, keeps Rel (k a)) -> keeps Rel (bind c k).
Proof.
  intros Hc Hk w. unfold bind. specialize (Hc w).
  destruct (c w) as [[a|e] w1]; cbn [snd] in *; [|exact Hc].
  etransitivity; [exact Hc|apply Hk].
Qed.

(** A statement that leaves the files alone keeps both relations. *)
Lemma keeps_same_fs (Rel : World R -> World R -> Prop) {A} (c : M R A) :
  (forall w w', fs w' = fs w -> Rel w w') ->
  (forall w, fs (snd (c w)) = fs w) -> keeps Rel c.
Proof. intros HRel Hc w. apply HRel, Hc. Qed.

Lemma same_outside_fs S w w' : fs w' = fs w -> same_outside S w w'.
Proof. intros E q _. now rewrite E. Qed.

Lemma nothing_lost_fs S w w' : fs w' = fs w -> nothing_lost S w w'.
Proof. intros E q x _. now rewrite E. Qed.

Lemma split_lines_fs lines w :
  fs (snd (split_lines lines w)) = fs w
  /\ stdout (snd (split_lines lines w)) = stdout w.
Proof.
  unfold split_lines, mbind, M_bind, bind, random_seed, random_shuffle.
  cbn [rng with_rng]. destruct (shuffle lines (seed 42)) as [[sh g]|e];
    [|split; reflexivity].
  unfold lift. destruct (n_train_of (length sh)); split; reflexivity.
Qed.

(** [os.mkdir] creates at most the path itself, and only where nothing
    was. *)
Lemma os_mkdir_effect p w :
  snd (os_mkdir p w) = w
  \/ (p <> [] /\ fs w !! p = None
      /\ snd (os_mkdir p w) = with_fs (<[p := Dir]> (fs w)) w).
Proof.
  unfold os_mkdir. destruct (parent_error w p); [now left|].
  destruct (node_at w p) eqn:E; [now left|right].
  destruct p; [discriminate|]. auto.
Qed.

Lemma os_mkdir_same_outside S p :
  (p <> [] -> p ∈ S) -> keeps (same_outside S) (os_mkdir p).
Proof.
  intros Hp w. destruct (os_mkdir_effect p w) as [->|(Hne & _ & ->)];
    [reflexivity|].
  intros q Hq. cbn. apply lookup_insert_ne. intros ->. auto.
Qed.

Lemma os_mkdir_nothing_lost S p : keeps (nothing_lost S) (os_mkdir p).
Proof.
  intros w. destruct (os_mkdir_effect p w) as [->|(Hne & Hnone & ->)];
    [reflexivity|].
  intros q x _ Hq. cbn. rewrite lookup_insert_ne; [exact Hq|].
  intros ->. congruence.
Qed.

Lemma parent_prefix (p : path) : Paths.parent p `prefix_of` p.
Proof.
  unfold Paths.parent. destruct (decide (p = [])) as [->|Hp].
  - reflexivity.
  - exists [List.last p ""]. now apply app_removelast_last.
Qed.

(** Whatever [Path.mkdir] does, it keeps a relation that [os.mkdir] keeps
    on the path and on all its ancestors. *)
Lemma mkdir_at_keeps (Rel : World R -> World R -> Prop)
    `{!Reflexive Rel, !Transitive Rel} depth parents exist_ok p :
  (forall q, q `prefix_of` p -> keeps Rel (os_mkdir q)) ->
  keeps Rel (mkdir_at depth parents exist_ok p).
Proof.
  revert parents exist_ok p.
  induction depth as [|d IH]; intros parents exist_ok p Hos w;
    cbn [mkdir_at]; pose proof (Hos p ltac:(reflexivity) w) as Hp;
    destruct (os_mkdir p w) as [[u|e] w1]; cbn [snd] in *; try exact Hp.
  - destruct e; try destruct (exist_ok && is_dir w1 p); exact Hp.
  - destruct e;
      try (destruct (exist_ok && is_dir w1 p); cbn [snd]; exact Hp).
    destruct parents; [|exact Hp].
    assert (Hpar : keeps Rel (mkdir_at d true true (Paths.parent p))).
    { apply IH. intros q Hq. apply Hos. etransitivity; [exact Hq|].
      apply parent_prefix. }
    specialize (Hpar w1).
    destruct (mkdir_at d true true (Paths.parent p) w1) as [[u|e] w2];
      cbn [snd] in *.
    + etransitivity; [exact Hp|]. etransitivity; [exact Hpar|].
      apply (IH false exist_ok p Hos w2).
    + etransitivity; [exact Hp|exact Hpar].
Qed.

Lemma write_text_effect p s w :
  snd (write_text p s w) = w
  \/ snd (write_text p s w) = with_fs (<[p := File s]> (fs w)) w.
Proof.
  unfold write_text. destruct (parent_error w p); [now left|].
  destruct (node_at w p) as [[c|]|]; auto.
Qed.

Lemma write_text_same_outside S p s :
  p ∈ S -> keeps (same_outside S) (write_text p s).
Proof.
  intros Hp w. destruct (write_text_effect p s w) as [->| ->]; [reflexivity|].
  intros q Hq. cbn. apply lookup_insert_ne. intros ->. auto.
Qed.

Lemma write_text_nothing_lost S p s :
  p ∈ S -> keeps (nothing_lost S) (write_text p s).
Proof.
  intros Hp w. destruct (write_text_effect p s w) as [->| ->]; [reflexivity|].
  intros q x Hq Hx. cbn. rewrite lookup_insert_ne; [exact Hx|].
  intros ->. auto.
Qed.

End Frames.

(** The path constants as lists of components, and membership of one of
    them in [split_outputs]. *)
Ltac explicit_paths :=
  unfold split_outputs;
  rewrite ?raw_file_eq, ?train_dir_eq, ?test_dir_eq, ?train_file_eq,
    ?test_file_eq;
  change (Paths.Path "data") with ["data"].

Ltac pick_path :=
  explicit_paths; rewrite !elem_of_cons;
  first [ left; reflexivity | right; left; reflexivity
        | do 2 right; left; reflexivity | do 3 right; left; reflexivity
        | do 4 right; left; reflexivity ].

Section SplitterFrames.
Context {R : Random}.
Implicit Types w : World R.

Lemma cell5_keeps (Rel : World R -> World R -> Prop)
    `{!Reflexive Rel, !Transitive Rel} :
  (forall w w', fs w' = fs w -> Rel w w') ->
  (forall q, q `prefix_of` train_dir \/ q `prefix_of` test_dir ->
             keeps Rel (os_mkdir q)) ->
  (forall s, keeps Rel (write_text train_file s)) ->
  (forall s, keeps Rel (write_text test_file s)) ->
  keeps Rel cell5.
Proof.
  intros Hfs Hmk Htrain Htest.
  assert (Hprint : forall s, keeps Rel (print s))
    by (intros s; apply keeps_same_fs; [exact Hfs|reflexivity]).
  assert (Hret : forall A (a : A), keeps Rel (mret a : M R A))
    by (intros A a; apply keeps_same_fs; [exact Hfs|reflexivity]).
  unfold cell5, mbind, M_bind.
  apply keeps_bind; [tc_solve| |intros found].
  { apply keeps_same_fs; [exact Hfs|reflexivity]. }
  destruct found; [|apply keeps_bind; [tc_solve|apply Hprint|intros; apply Hret]].
  apply keeps_bind; [tc_solve| |intros text].
  { apply keeps_same_fs; [exact Hfs|]. intros w. unfold read_text.
    now destruct (node_at w raw_file) as [[c|]|]. }
  apply keeps_bind; [tc_solve| |intros [[n train_lines] test_lines]].
  { apply keeps_same_fs; [exact Hfs|]. intros w. apply split_lines_fs. }
  apply keeps_bind; [tc_solve| |intros _].
  { apply mkdir_at_keeps; try tc_solve. intros q Hq. apply Hmk. now left. }
  apply keeps_bind; [tc_solve| |intros _].
  { apply mkdir_at_keeps; try tc_solve. intros q Hq. apply Hmk. now right. }
  apply keeps_bind; [tc_solve|apply Htrain|intros _].
  apply keeps_bind; [tc_solve|apply Htest|intros _].
  apply keeps_bind; [tc_solve|apply Hprint|intros _]. apply Hret.
Qed.

Lemma prefix_of_outputs (q : path) :
  q `prefix_of` train_dir \/ q `prefix_of` test_dir ->
  q <> [] -> q ∈ split_outputs.
Proof.
  rewrite train_dir_eq, test_dir_eq. unfold split_outputs.
  rewrite train_dir_eq, test_dir_eq.
  change (Paths.Path "data") with ["data"].
  intros [[k Hk]|[k Hk]] Hq; destruct q as [|a [|b [|c q]]]; try done;
    simplify_eq/=; rewrite !elem_of_cons;
    first [ left; reflexivity | right; left; reflexivity
          | do 2 right; left; reflexivity ].
Qed.

(** X1. In every outcome, cell 5 leaves alone the files other than its two
    directories (with their parent) and its two files. *)
Theorem cell5_touches_only_outputs w q :
  q ∉ split_outputs -> fs (snd (cell5 w)) !! q = fs w !! q.
Proof.
  intros Hq. revert q Hq.
  change (same_outside split_outputs w (snd (cell5 w))).
  apply cell5_keeps; try tc_solve.
  - apply same_outside_fs.
  - intros q Hq. apply os_mkdir_same_outside. now apply prefix_of_outputs.
  - intros s. apply write_text_same_outside. pick_path.
  - intros s. apply write_text_same_outside. pick_path.
Qed.

(** X2. In every outcome, what was in the checkout before cell 5 is still
    there after it, the two output files apart: the cell removes nothing
    and replaces no file or directory by another. *)
Theorem cell5_loses_nothing w q x :
  q <> train_file -> q <> test_file ->
  fs w !! q = Some x -> fs (snd (cell5 w)) !! q = Some x.
Proof.
  intros H1 H2.
  assert (Hq : q ∉ [train_file; test_file])
    by (rewrite !not_elem_of_cons; auto using not_elem_of_nil).
  assert (Hall : nothing_lost [train_file; test_file] w (snd (cell5 w))).
  { apply cell5_keeps; try tc_solve.
    - apply nothing_lost_fs.
    - intros p _. apply os_mkdir_nothing_lost.
    - intros s. apply write_text_nothing_lost. pick_path.
    - intros s. apply write_text_nothing_lost. pick_path. }
  exact (Hall q x Hq).
Qed.

End SplitterFrames.

Section Outcomes.
Context {R : Random}.
Implicit Types w : World R.

Global Instance same_output_refl : Reflexive (same_output (R := R)).
Proof. intros w. reflexivity. Qed.
Global Instance same_output_trans : Transitive (same_output (R := R)).
Proof. intros w1 w2 w3 H12 H23. unfold same_output in *. congruence. Qed.

Lemma mkdir_same_output parents exist_ok p w :
  stdout (snd (mkdir parents exist_ok p w)) = stdout w.
Proof.
  apply (mkdir_at_keeps same_output). intros q _ w0.
  destruct (os_mkdir_effect q w0) as [->|(_ & _ & ->)]; reflexivity.
Qed.

Lemma write_text_same_output p s w :
  stdout (snd (write_text p s w)) = stdout w.
Proof. destruct (write_text_effect p s w) as [->| ->]; reflexivity. Qed.

(** X3. A run of cell 5 that ends normally has printed exactly one line; a
    run that raises has printed nothing. *)
Theorem cell5_prints_once_or_not_at_all w :
  match cell5 w with
  | (Ok _, w') => exists line, stdout w' = stdout w ++ [line]
  | (Raise _, w') => stdout w' = stdout w
  end.
Proof.
  unfold cell5, mbind, M_bind, bind, path_exists.
  destruct (bool_decide _); [|eexists; reflexivity].
  unfold read_text. destruct (node_at w raw_file) as [[c|]|]; try reflexivity.
  pose proof (split_lines_fs (Text.splitlines (Text.universal_newlines c)) w)
    as [_ H0].
  destruct (split_lines _ w) as [[[[n tr] te]|e] w0]; cbn [snd] in H0;
    [|exact H0].
  pose proof (mkdir_same_output true true train_dir w0) as H1.
  destruct (mkdir true true train_dir w0) as [[u|e] w1]; cbn [snd] in H1;
    [|congruence].
  pose proof (mkdir_same_output true true test_dir w1) as H2.
  destruct (mkdir true true test_dir w1) as [[u2|e] w2]; cbn [snd] in H2;
    [|congruence].
  pose proof (write_text_same_output train_file (dump_lines tr) w2) as H3.
  destruct (write_text train_file _ w2) as [[u3|e] w3]; cbn [snd] in H3;
    [|congruence].
  pose proof (write_text_same_output test_file (dump_lines te) w3) as H4.
  destruct (write_text test_file _ w3) as [[u4|e] w4]; cbn [snd] in H4;
    [|congruence].
  cbn. eexists. rewrite H4, H3, H2, H1, H0. reflexivity.
Qed.

End Outcomes.

Section MergerOutcomes.
Context {R : Random} {J : JsonCodec}.
Implicit Types w : World R.

Lemma cell7_effect w :
  snd (cell7 w) = w
  \/ exists text,
       snd (cell7 w) = with_fs (<[config_file := File text]> (fs w)) w.
Proof.
  unfold cell7, mbind, M_bind, bind, read_text, lift, json_load.
  destruct (node_at w config_file) as [[c|]|]; try (now left).
  destruct (json_loads _) as [v|]; [|now left].
  destruct (setitem v merged_key merged_entry) as [v'|e]; [|now left].
  unfold write_text. destruct (parent_error w config_file); [now left|].
  destruct (node_at w config_file) as [[c'|]|]; try (now left);
    right; eexists; reflexivity.
Qed.

(** X4. Cell 7 is all or nothing: a run that raises leaves the world exactly
    as it was; a run that ends normally has replaced the configuration
    file and changed nothing else (no other file, no output, not the
    generator). *)
Theorem cell7_all_or_nothing w :
  match cell7 w with
  | (Raise _, w') => w' = w
  | (Ok _, w') =>
      exists text, w' = with_fs (<[config_file := File text]> (fs w)) w
  end.
Proof.
  unfold cell7, mbind, M_bind, bind, read_text, lift, json_load.
  destruct (node_at w config_file) as [[c|]|]; try reflexivity.
  destruct (json_loads _) as [v|]; [|reflexivity].
  destruct (setitem v merged_key merged_entry) as [v'|e]; [|reflexivity].
  unfold write_text. destruct (parent_error w config_file); [reflexivity|].
  destruct (node_at w config_file) as [[c'|]|]; try reflexivity;
    eexists; reflexivity.
Qed.


End MergerOutcomes.

Section SplitterErrors.
Context {R : Random}.
Implicit Types w : World R.

(** X6. When [data/finai_raw.jsonl] is a directory, [exists()] is true and
    [open] raises: cell 5 ends with [IsADirectoryError] and the world is
    as it was. *)
Theorem cell5_raw_is_a_directory w :
  fs w !! raw_file = Some Dir ->
  cell5 w = (Raise IsADirectoryError, w).
Proof.
  intros H. unfold cell5, mbind, M_bind, bind, path_exists, read_text.
  rewrite raw_file_eq in *. rewrite node_at_cons, H.
  rewrite bool_decide_eq_true_2 by eauto. cbv beta iota.
  rewrite node_at_cons, H. reflexivity.
Qed.

(** X7. [exist_ok=True] accepts a directory, not a file: when a regular file
    sits at [data/train], cell 5 raises [FileExistsError] after the
    shuffle; no file or directory has changed and nothing was printed. *)
Theorem cell5_train_dir_is_a_file w c x :
  fs w !! raw_file = Some (File c) ->
  fs w !! Paths.Path "data" = Some Dir ->
  fs w !! train_dir = Some (File x) ->
  (Z.of_nat (length (Text.splitlines (Text.universal_newlines c)))
     <= PY_SSIZE_T_MAX)%Z ->
  exists g, cell5 w = (Raise FileExistsError, with_rng g w).
Proof.
  intros Hraw Hdata Hfile Hn.
  destruct (split_lines_run _ w Hn)
    as (sh & g & k & _ & _ & _ & _ & _ & Hrun).
  exists g. unfold cell5, mbind, M_bind, bind, path_exists, read_text.
  rewrite raw_file_eq in *. rewrite node_at_cons, Hraw.
  rewrite bool_decide_eq_true_2 by eauto. cbv beta iota.
  rewrite node_at_cons, Hraw, Hrun. cbv beta iota.
  rewrite train_dir_eq in *. change (Paths.Path "data") with ["data"] in Hdata.
  unfold mkdir. cbn [length mkdir_at]. unfold os_mkdir, parent_error.
  cbn [Paths.parent removelast node_at with_rng fs]. rewrite Hdata, Hfile.
  unfold is_dir. cbn [node_at with_rng fs]. rewrite Hfile. reflexivity.
Qed.

(** X8. The writes are not atomic: when a directory sits at
    [data/test/finai_test.jsonl], cell 5 has made its directories and
    written the train file before it raises [IsADirectoryError]; nothing
    is printed. *)
Theorem cell5_fails_half_way w c :
  fs w !! raw_file = Some (File c) ->
  fs w !! Paths.Path "data" = Some Dir ->
  (fs w !! train_dir = None \/ fs w !! train_dir = Some Dir) ->
  (fs w !! test_dir = None \/ fs w !! test_dir = Some Dir) ->
  fs w !! train_file <> Some Dir ->
  fs w !! test_file = Some Dir ->
  (Z.of_nat (length (Text.splitlines (Text.universal_newlines c)))
     <= PY_SSIZE_T_MAX)%Z ->
  exists train_lines w',
    cell5 w = (Raise IsADirectoryError, w')
    /\ fs w' !! train_file = Some (File (dump_lines train_lines))
    /\ fs w' !! train_dir = Some Dir
    /\ fs w' !! test_dir = Some Dir
    /\ fs w' !! test_file = Some Dir
    /\ stdout w' = stdout w.
Proof.
  intros Hraw Hdata Htrain Htest Htf Hsf Hn.
  destruct (split_lines_run _ w Hn)
    as (sh & g & k & _ & _ & _ & _ & _ & Hrun).
  unfold cell5, mbind, M_bind, bind, path_exists, read_text.
  rewrite raw_file_eq in *. rewrite node_at_cons, Hraw.
  rewrite bool_decide_eq_true_2 by eauto. cbv beta iota.
  rewrite node_at_cons, Hraw, Hrun. cbv beta iota.
  rewrite train_dir_eq, test_dir_eq, train_file_eq, test_file_eq in *.
  change (Paths.Path "data") with ["data"] in Hdata.
  set (w1 := with_rng g w).
  rewrite (mkdir_ok w1 ["data"; "train"]); [|done|exact Hdata|exact Htrain].
  set (w2 := with_fs _ w1).
  rewrite (mkdir_ok w2 ["data"; "test"]); [|done| |].
  2: { cbn. rewrite lookup_insert_ne by done. exact Hdata. }
  2: { cbn. rewrite lookup_insert_ne by done. exact Htest. }
  set (w3 := with_fs _ w2).
  rewrite (write_ok w3 ["data"; "train"; "finai_train.jsonl"]); [|done| |].
  2: { cbn. rewrite lookup_insert_ne by done. apply lookup_insert_eq. }
  2: { cbn. rewrite !lookup_insert_ne by done. exact Htf. }
  set (w4 := with_fs _ w3).
  assert (H4 : write_text ["data"; "test"; "finai_test.jsonl"]
                 (dump_lines (Seq.slice_from sh k)) w4
               = (Raise IsADirectoryError, w4)).
  { unfold write_text, parent_error.
    cbn [Paths.parent removelast node_at fs w4 w3 w2 w1 with_fs with_rng].
    rewrite lookup_insert_ne by done. rewrite lookup_insert_eq.
    rewrite !lookup_insert_ne by done. rewrite Hsf. reflexivity. }
  rewrite H4. eexists _, _. split; [reflexivity|].
  cbn [fs w4 w3 w2 w1 with_fs with_rng stdout].
  repeat split.
  - apply lookup_insert_eq.
  - rewrite !lookup_insert_ne by done. apply lookup_insert_eq.
  - rewrite lookup_insert_ne by done. apply lookup_insert_eq.
  - rewrite !lookup_insert_ne by done. exact Hsf.
Qed.

End SplitterErrors.

Section Mkdir.
Context {R : Random}.
Implicit Types w : World R.

Lemma parent_neq (p : path) : p <> [] -> Paths.parent p <> p.
Proof.
  intros Hp E. apply (f_equal length) in E. unfold Paths.parent in E.
  destruct p as [|a p]; [done|].
  rewrite (app_removelast_last "" (l := a :: p)) in E at 2 by done.
  rewrite length_app in E. cbn in E. lia.
Qed.

Lemma os_mkdir_ok p w u w1 :
  os_mkdir p w = (Ok u, w1) ->
  is_dir w1 p = true /\ parent_error w1 p = None.
Proof.
  unfold os_mkdir. destruct (parent_error w p) as [e|] eqn:Hpar; [done|].
  destruct (node_at w p) as [x|] eqn:Hnode; [done|]. intros [= <- <-].
  destruct p as [|a p]; [discriminate|].
  unfold is_dir, parent_error in *. cbn [node_at with_fs fs].
  rewrite lookup_insert_eq. split; [now apply bool_decide_eq_true_2|].
  pose proof (parent_neq (a :: p) ltac:(done)) as Hne.
  destruct (Paths.parent (a :: p)) as [|b q]; [done|].
  cbn [node_at with_fs fs] in *. now rewrite lookup_insert_ne.
Qed.

Lemma os_mkdir_raise p w e w1 :
  os_mkdir p w = (Raise e, w1) ->
  w1 = w /\ (e = FileNotFoundError
             \/ parent_error w p <> Some FileNotFoundError).
Proof.
  unfold os_mkdir. destruct (parent_error w p) as [e'|] eqn:Hpar.
  - intros [= <- <-]. split; [done|].
    destruct e'; auto; right; discriminate.
  - destruct (node_at w p); intros [= <- <-]. split; [done|]. now right.
Qed.

Lemma mkdir_at_makes_dir depth parents exist_ok p w u w1 :
  mkdir_at depth parents exist_ok p w = (Ok u, w1) ->
  is_dir w1 p = true /\ parent_error w1 p <> Some FileNotFoundError.
Proof.
  revert parents exist_ok p w u w1.
  assert (Hexist : forall exist_ok p w e w' u w1,
    os_mkdir p w = (Raise e, w') -> e <> FileNotFoundError ->
    (if exist_ok && is_dir w' p then (Ok (), w') else (Raise e, w'))
      = (Ok u, w1) ->
    is_dir w1 p = true /\ parent_error w1 p <> Some FileNotFoundError).
  { intros exist_ok p w e w' u w1 Hos He.
    apply os_mkdir_raise in Hos as [-> [->|Hpar]]; [done|].
    destruct (exist_ok && is_dir w p) eqn:Hd; [|discriminate].
    intros [= <- <-]. apply andb_true_iff in Hd as [_ Hd]. auto. }
  induction depth as [|d IH]; intros parents exist_ok p w u w1;
    cbn [mkdir_at]; destruct (os_mkdir p w) as [[u0|e] w'] eqn:Hos.
  - intros [= <- <-]. destruct (os_mkdir_ok _ _ _ _ Hos) as [? E].
    split; [done|]. rewrite E. discriminate.
  - destruct e; try discriminate; now apply (Hexist _ _ _ _ _ _ _ Hos).
  - intros [= <- <-]. destruct (os_mkdir_ok _ _ _ _ Hos) as [? E].
    split; [done|]. rewrite E. discriminate.
  - destruct e; try (now apply (Hexist _ _ _ _ _ _ _ Hos)).
    destruct parents; [|discriminate].
    destruct (mkdir_at d true true (Paths.parent p) w') as [[u'|e] w2];
      [|discriminate].
    apply IH.
Qed.

(** X9. [mkdir(parents=True, exist_ok=True)] is idempotent: after a call
    that ended normally the path is a directory, and a second call ends
    normally without changing anything. *)
Theorem mkdir_twice p w w1 :
  mkdir true true p w = (Ok (), w1) ->
  node_at w1 p = Some Dir /\ mkdir true true p w1 = (Ok (), w1).
Proof.
  unfold mkdir. intros H. apply mkdir_at_makes_dir in H as [Hd Hpar].
  split; [unfold is_dir in Hd; now apply bool_decide_eq_true_1 in Hd|].
  destruct (length p); cbn [mkdir_at]; unfold os_mkdir;
    (destruct (parent_error w1 p) as [e|];
     [destruct e; try congruence; cbn [andb]; now rewrite Hd|]);
    unfold is_dir in Hd; apply bool_decide_eq_true_1 in Hd;
    rewrite Hd; cbn [andb]; unfold is_dir; rewrite Hd;
    now rewrite bool_decide_eq_true_2.
Qed.

End Mkdir.

Section Composition.
Context {R : Random} {J : JsonCodec}.
Implicit Types w : World R.

Lemma fs_after_split_lookup (f : gmap path node) a b q :
  fs_after_split f a b !! q =
  if decide (["data"; "test"; "finai_test.jsonl"] = q)
  then Some (File (dump_lines b))
  else if decide (["data"; "train"; "finai_train.jsonl"] = q)
  then Some (File (dump_lines a))
  else if decide (["data"; "test"] = q) then Some Dir
  else if decide (["data"; "train"] = q) then Some Dir
  else f !! q.
Proof.
  unfold fs_after_split.
  rewrite train_dir_eq, test_dir_eq, train_file_eq, test_file_eq.
  rewrite !lookup_insert. reflexivity.
Qed.

Lemma fs_after_split_twice (f : gmap path node) a b :
  fs_after_split (fs_after_split f a b) a b = fs_after_split f a b.
Proof.
  apply map_eq. intros q. rewrite !fs_after_split_lookup.
  repeat (case_decide; try reflexivity; try congruence).
Qed.

Lemma writable_after_split w a b :
  outputs_writable w ->
  outputs_writable (with_fs (fs_after_split (fs w) a b) w).
Proof.
  intros (Hdata & _). unfold outputs_writable. cbn [fs with_fs].
  rewrite !fs_after_split_lookup.
  change (Paths.Path "data") with ["data"] in *.
  rewrite train_dir_eq, test_dir_eq, train_file_eq, test_file_eq.
  repeat (case_decide; try congruence).
  repeat split; auto; discriminate.
Qed.

(** X10. Running cell 5 again right after a run that ended normally binds the
    same partitions and leaves the files and the generator as the first
    run left them: the raw file is not consumed, and the outputs are
    overwritten with what they hold. *)
Theorem cell5_again w c :
  fs w !! raw_file = Some (File c) ->
  outputs_writable w ->
  (Z.of_nat (length (Text.splitlines (Text.universal_newlines c)))
     <= PY_SSIZE_T_MAX)%Z ->
  exists split w1 w2,
    cell5 w = (Ok (Some split), w1)
    /\ cell5 w1 = (Ok (Some split), w2)
    /\ fs w2 = fs w1 /\ rng w2 = rng w1.
Proof.
  intros Hraw Hw Hn.
  destruct (cell5_run w c Hraw Hw Hn)
    as (sh & g & k & Hsh & _ & _ & Hk & _ & Hc1).
  cbv zeta in Hc1. rewrite Hc1. eexists _, _, _. split; [reflexivity|].
  match goal with |- cell5 ?x = _ /\ _ => set (w1 := x) end.
  assert (Hraw1 : fs w1 !! raw_file = Some (File c)).
  { cbn [fs w1]. rewrite fs_after_split_lookup.
    rewrite raw_file_eq in *.
    repeat (case_decide; [discriminate|]). exact Hraw. }
  assert (Hw1 : outputs_writable w1).
  { exact (writable_after_split w _ _ Hw). }
  destruct (cell5_run w1 c Hraw1 Hw1 Hn)
    as (sh' & g' & k' & Hsh' & _ & _ & Hk' & _ & Hc2).
  assert (sh' = sh /\ g' = g /\ k' = k) as (-> & -> & ->)
    by (repeat split; congruence).
  cbv zeta in Hc2. rewrite Hc2. split; [reflexivity|]. cbn [fs rng w1].
  split; [apply fs_after_split_twice|reflexivity].
Qed.


End Composition.

Section TextFacts.

Lemma CR_is_linebreak c :
  Ascii.eqb c Text.CR = true -> Text.is_linebreak c = true.
Proof. intros H. apply Ascii.eqb_eq in H. subst. reflexivity. Qed.

Lemma LF_not_CR : Ascii.eqb Text.LF Text.CR = false.
Proof. reflexivity. Qed.

Lemma append_nil (a : string) : "" +:+ a = a.
Proof. reflexivity. Qed.

Lemma append_cons x (a b : string) : String x a +:+ b = String x (a +:+ b).
Proof. reflexivity. Qed.

Lemma append_assoc (a b c : string) : (a +:+ b) +:+ c = a +:+ (b +:+ c).
Proof.
  induction a as [|x a IH]; [reflexivity|]. rewrite !append_cons. now f_equal.
Qed.

Lemma append_empty (a : string) : a +:+ "" = a.
Proof.
  induction a as [|x a IH]; [reflexivity|]. rewrite append_cons. now f_equal.
Qed.

Lemma one_line_app a b : one_line (a +:+ b) = one_line a && one_line b.
Proof.
  induction a as [|x a IH]; [reflexivity|].
  rewrite append_cons. cbn [one_line]. rewrite IH. now rewrite andb_assoc.
Qed.

(** No line of [splitlines] holds a line boundary. *)
Lemma splitlines_from_one_line n : forall s line,
  String.length s <= n -> one_line line = true ->
  Forall (fun l => one_line l = true) (Text.splitlines_from line s).
Proof.
  induction n as [|n IH]; intros s line Hn Hline.
  - destruct s; [|cbn in Hn; lia]. cbn.
    destruct line; repeat constructor. exact Hline.
  - destruct s as [|c s'].
    + cbn. destruct line; repeat constructor. exact Hline.
    + cbn [Text.splitlines_from]. cbn in Hn.
      destruct (Text.is_linebreak c) eqn:Hc.
      * destruct s' as [|c' s''].
        -- constructor; [exact Hline|]. apply IH; [cbn; lia|reflexivity].
        -- destruct (_ && _); (constructor; [exact Hline|]);
             (apply IH; [cbn in *; lia|reflexivity]).
      * apply IH; [lia|]. rewrite one_line_app, Hline. cbn. now rewrite Hc.
Qed.

Lemma splitlines_one_line s :
  Forall (fun l => one_line l = true) (Text.splitlines s).
Proof. now apply (splitlines_from_one_line (String.length s)). Qed.

(** A line and its newline are split off as they are. *)
Lemma splitlines_from_line l : forall acc rest,
  one_line l = true ->
  Text.splitlines_from acc (l +:+ String Text.LF rest)
  = (acc +:+ l) :: Text.splitlines_from "" rest.
Proof.
  induction l as [|c l IH]; intros acc rest Hl.
  - rewrite append_nil, append_empty. cbn [Text.splitlines_from].
    change (Text.is_linebreak Text.LF) with true. cbv iota.
    rewrite LF_not_CR. cbn [andb]. now destruct rest.
  - cbn in Hl. apply andb_true_iff in Hl as [Hc Hl].
    apply negb_true_iff in Hc. rewrite append_cons.
    cbn [Text.splitlines_from].
    rewrite Hc, IH by exact Hl. now rewrite append_assoc.
Qed.

Lemma universal_newlines_line l : forall rest,
  one_line l = true ->
  Text.universal_newlines (l +:+ String Text.LF rest)
  = l +:+ String Text.LF (Text.universal_newlines rest).
Proof.
  induction l as [|c l IH]; intros rest Hl.
  - rewrite !append_nil. cbn [Text.universal_newlines].
    now rewrite LF_not_CR.
  - cbn in Hl. apply andb_true_iff in Hl as [Hc Hl].
    apply negb_true_iff in Hc. rewrite !append_cons.
    cbn [Text.universal_newlines].
    destruct (Ascii.eqb c Text.CR) eqn:E.
    + apply CR_is_linebreak in E. congruence.
    + now rewrite IH.
Qed.

Lemma dump_lines_one x : dump_lines [x] = x +:+ String Text.LF "".
Proof. reflexivity. Qed.

Lemma dump_lines_cons x y l :
  dump_lines (x :: y :: l) = x +:+ String Text.LF (dump_lines (y :: l)).
Proof.
  unfold dump_lines. cbn [Text.join]. now rewrite append_assoc.
Qed.

Lemma read_back_nonempty l : forall x,
  Forall (fun l => one_line l = true) (x :: l) ->
  Text.splitlines (Text.universal_newlines (dump_lines (x :: l))) = x :: l.
Proof.
  unfold Text.splitlines.
  induction l as [|y l IH]; intros x Hx; inversion_clear Hx as [|? ? H1 H2].
  - rewrite dump_lines_one, universal_newlines_line by exact H1.
    rewrite splitlines_from_line by exact H1. now rewrite append_nil.
  - rewrite dump_lines_cons, universal_newlines_line by exact H1.
    rewrite splitlines_from_line by exact H1. rewrite append_nil.
    now rewrite IH.
Qed.

Lemma dump_lines_read_back lines :
  Forall (fun l => one_line l = true) lines ->
  Text.splitlines (Text.universal_newlines (dump_lines lines))
  = read_back lines.
Proof.
  destruct lines as [|x l]; [reflexivity|]. apply read_back_nonempty.
Qed.

End TextFacts.

Section SplitterResults.
Context {R : Random}.
Implicit Types w : World R.

Lemma split_lines_inv lines w n a b w' :
  split_lines lines w = (Ok (n, a, b), w') ->
  n = length lines /\ a ++ b ≡ₚ lines /\ fs w' = fs w.
Proof.
  unfold split_lines, mbind, M_bind, bind, random_seed, random_shuffle.
  cbn [rng with_rng].
  destruct (shuffle_ok lines (seed 42)) as (sh & g & -> & Hlen & Hperm).
  unfold lift. destruct (n_train_of (length sh)) as [k|e]; [|discriminate].
  cbn. intros [= <- <- <- <-]. rewrite slice_app. auto.
Qed.

Lemma write_text_ok p s w u w' :
  write_text p s w = (Ok u, w') ->
  w' = with_fs (<[p := File s]> (fs w)) w.
Proof.
  unfold write_text. destruct (parent_error w p); [discriminate|].
  destruct (node_at w p) as [[c|]|]; congruence.
Qed.

Lemma mkdir_nothing_lost parents exist_ok p w :
  nothing_lost [] w (snd (mkdir parents exist_ok p w)).
Proof.
  apply (mkdir_at_keeps (nothing_lost [])). intros q _.
  apply os_mkdir_nothing_lost.
Qed.

(** What a run of cell 5 that binds [(a, b)] has done. *)
Lemma cell5_ok_inv w a b w1 :
  cell5 w = (Ok (Some (a, b)), w1) ->
  exists c,
    fs w !! raw_file = Some (File c)
    /\ a ++ b ≡ₚ Text.splitlines (Text.universal_newlines c)
    /\ fs w1 !! train_dir = Some Dir
    /\ fs w1 !! test_dir = Some Dir
    /\ fs w1 !! train_file = Some (File (dump_lines a))
    /\ fs w1 !! test_file = Some (File (dump_lines b)).
Proof.
  unfold cell5, mbind, M_bind, bind, path_exists.
  destruct (bool_decide _); [|discriminate].
  unfold read_text. rewrite raw_file_eq, node_at_cons.
  destruct (fs w !! _) as [[c|]|] eqn:Hraw; try discriminate.
  destruct (split_lines _ w) as [[[[n tr] te]|e] w0] eqn:Hsplit;
    [|discriminate].
  apply split_lines_inv in Hsplit as (_ & Hperm & Hfs0).
  destruct (mkdir true true train_dir w0) as [[u1|e] w2] eqn:Hm1;
    [|discriminate].
  pose proof (mkdir_nothing_lost true true test_dir w2) as Hkeep.
  destruct (mkdir true true test_dir w2) as [[u2|e] w3] eqn:Hm2;
    [|discriminate].
  apply mkdir_at_makes_dir in Hm1 as [Hd1 _].
  apply mkdir_at_makes_dir in Hm2 as [Hd2 _].
  apply bool_decide_eq_true_1 in Hd1, Hd2.
  destruct (write_text train_file _ w3) as [[u3|e] w4] eqn:Hw1;
    [|discriminate].
  destruct (write_text test_file _ w4) as [[u4|e] w5] eqn:Hw2;
    [|discriminate].
  apply write_text_ok in Hw1, Hw2. subst w4 w5.
  cbn. intros [= <- <- <-]. exists c. split; [reflexivity|].
  split; [exact Hperm|]. cbn [fs with_fs].
  rewrite ?train_dir_eq, ?test_dir_eq, ?train_file_eq, ?test_file_eq in *.
  rewrite node_at_cons in Hd1, Hd2.
  apply (Hkeep _ _ ltac:(apply not_elem_of_nil)) in Hd1. cbn [snd] in Hd1.
  rewrite !lookup_insert_eq, !lookup_insert_ne by discriminate.
  rewrite lookup_insert_eq. auto.
Qed.

(** X12. A run of cell 5 that ends normally with partitions has written,
    whatever the generator and whatever was there before, exactly the
    lists it binds: each partition's file holds its lines joined by
    newlines with one newline at the end, both directories exist, and
    the two lists together are a rearrangement of the lines of the raw
    file. *)
Theorem cell5_writes_what_it_binds w a b w1 :
  cell5 w = (Ok (Some (a, b)), w1) ->
  is_dir w1 train_dir = true /\ is_dir w1 test_dir = true
  /\ fs w1 !! train_file = Some (File (dump_lines a))
  /\ fs w1 !! test_file = Some (File (dump_lines b))
  /\ exists c, fs w !! raw_file = Some (File c)
       /\ a ++ b ≡ₚ Text.splitlines (Text.universal_newlines c).
Proof.
  intros H. apply cell5_ok_inv in H as (c & Hc & Hp & H1 & H2 & H3 & H4).
  unfold is_dir. rewrite train_dir_eq, test_dir_eq in *.
  rewrite !node_at_cons.
  repeat split; try (apply bool_decide_eq_true_2); eauto.
Qed.

Lemma read_lines_file p c w :
  p <> [] -> fs w !! p = Some (File c) ->
  read_lines p w = (Ok (Text.splitlines (Text.universal_newlines c)), w).
Proof.
  intros Hp Hc. unfold read_lines, mbind, M_bind, bind, read_text.
  destruct p; [done|]. rewrite node_at_cons, Hc. reflexivity.
Qed.

(** X13. Reading the files cell 5 wrote, the way cell 5 reads its input, gives
    the partitions back, with one exception: the file of an empty
    partition is a lone newline and reads back as one empty line. *)
Theorem cell5_outputs_read_back w a b w1 :
  cell5 w = (Ok (Some (a, b)), w1) ->
  read_lines train_file w1 = (Ok (read_back a), w1)
  /\ read_lines test_file w1 = (Ok (read_back b), w1).
Proof.
  intros H. apply cell5_ok_inv in H as (c & _ & Hp & _ & _ & H3 & H4).
  assert (Hall : Forall (fun l => one_line l = true) (a ++ b)).
  { eapply Permutation_Forall; [symmetry; exact Hp|].
    apply splitlines_one_line. }
  apply Forall_app in Hall as [Ha Hb].
  rewrite (read_lines_file train_file _ _
             ltac:(rewrite train_file_eq; discriminate) H3).
  rewrite (read_lines_file test_file _ _
             ltac:(rewrite test_file_eq; discriminate) H4).
  now rewrite !dump_lines_read_back.
Qed.

End SplitterResults.

Section Newlines.
Context {R : Random}.
Implicit Types w : World R.

(** A boundary that is not the first half of a carriage return and line
    feed pair ends the line. *)
Lemma splitlines_from_break line c t :
  Text.is_linebreak c = true ->
  (Ascii.eqb c Text.CR = true ->
   match t with String c' _ => Ascii.eqb c' Text.LF = false | _ => True end) ->
  Text.splitlines_from line (String c t)
  = line :: Text.splitlines_from "" t.
Proof.
  intros Hc Hcr. cbn [Text.splitlines_from]. rewrite Hc.
  destruct t as [|c' t']; [reflexivity|].
  destruct (Ascii.eqb c Text.CR); [|reflexivity].
  now rewrite Hcr.
Qed.

Lemma splitlines_from_universal n : forall s line,
  String.length s <= n ->
  Text.splitlines_from line (Text.universal_newlines s)
  = Text.splitlines_from line s.
Proof.
  induction n as [|n IH]; intros s line Hn;
    (destruct s as [|c s']; [reflexivity|]); cbn in Hn; [lia|].
  cbn [Text.universal_newlines].
  destruct (Ascii.eqb c Text.CR) eqn:Ecr.
  - pose proof (CR_is_linebreak c Ecr) as Hc.
    assert (HLF : forall t, Text.splitlines_from line (String Text.LF t)
                            = line :: Text.splitlines_from "" t).
    { intros t. apply splitlines_from_break; [reflexivity|].
      rewrite LF_not_CR. discriminate. }
    destruct s' as [|c' s''].
    + rewrite HLF. cbn [Text.splitlines_from]. now rewrite Hc.
    + cbn [Text.splitlines_from]. rewrite Hc, Ecr. cbn [andb].
      destruct (Ascii.eqb c' Text.LF) eqn:Elf; rewrite HLF; f_equal;
        apply IH; cbn in *; lia.
  - destruct (Text.is_linebreak c) eqn:Hc.
    + rewrite !splitlines_from_break; try assumption; try congruence.
      f_equal. apply IH. lia.
    + cbn [Text.splitlines_from]. rewrite Hc. apply IH. lia.
Qed.

(** X14. The lines cell 5 reads do not depend on the newline translation of
    text mode: a file with Windows, old Mac or Unix line ends is read as
    [splitlines] of the characters it holds. *)
Theorem read_lines_any_newline p c w :
  p <> [] -> fs w !! p = Some (File c) ->
  read_lines p w = (Ok (Text.splitlines c), w).
Proof.
  intros Hp Hc. rewrite (read_lines_file p c w Hp Hc).
  unfold Text.splitlines.
  now rewrite (splitlines_from_universal (String.length c)).
Qed.

Lemma splitlines_from_boundary l : forall acc c rest,
  one_line l = true -> Text.is_linebreak c = true ->
  match rest with String c' _ => Ascii.eqb c' Text.LF = false | _ => True end ->
  Text.splitlines_from acc (l +:+ String c rest)
  = (acc +:+ l) :: Text.splitlines_from "" rest.
Proof.
  induction l as [|x l IH]; intros acc c rest Hl Hc Hrest.
  - rewrite append_nil, append_empty. apply splitlines_from_break; auto.
  - cbn in Hl. apply andb_true_iff in Hl as [Hx Hl].
    apply negb_true_iff in Hx. rewrite append_cons.
    cbn [Text.splitlines_from].
    rewrite Hx, IH by assumption. now rewrite append_assoc.
Qed.

(** X15. A record that holds a line boundary other than a newline (a vertical
    tab, a form feed, a carriage return, a file, group or record
    separator, or a next-line character) is not one line to cell 5: the
    file that holds the record and its newline is read as two lines, one
    on each side of the boundary. *)
Theorem record_with_boundary_is_cut p w (a b : string) (c : ascii) :
  p <> [] ->
  one_line a = true -> one_line b = true -> b <> "" ->
  Text.is_linebreak c = true ->
  fs w !! p = Some (File (a +:+ String c b +:+ Text.newline)) ->
  read_lines p w = (Ok [a; b], w).
Proof.
  intros Hp Ha Hb Hne Hc Hfile.
  rewrite (read_lines_file p _ w Hp Hfile). do 2 f_equal.
  unfold Text.splitlines.
  rewrite (splitlines_from_universal (String.length _)) by reflexivity.
  rewrite append_cons.
  rewrite splitlines_from_boundary; try assumption.
  - rewrite append_nil. f_equal. unfold Text.newline.
    rewrite splitlines_from_line by exact Hb. now rewrite append_nil.
  - destruct b as [|x b]; [done|]. rewrite append_cons.
    cbn in Hb. apply andb_true_iff in Hb as [Hx _].
    apply negb_true_iff in Hx.
    destruct (Ascii.eqb x Text.LF) eqn:E; [|reflexivity].
    apply Ascii.eqb_eq in E. subst x. discriminate.
Qed.

End Newlines.

Section AnswerFacts.

Lemma from_app q rest : Answer.from (String.length q) (q +:+ rest) = rest.
Proof. induction q as [|c q IH]; [reflexivity|]. exact IH. Qed.

Lemma from_short k : forall s, String.length s <= k -> Answer.from k s = "".
Proof.
  induction k as [|k IH]; intros [|c s] Hs; cbn in *; try reflexivity;
    [lia|apply IH; lia].
Qed.

Lemma lstrip_head s :
  match Answer.lstrip s with
  | String c _ => Answer.is_space c = false
  | EmptyString => True
  end.
Proof.
  induction s as [|c s IH]; cbn; [exact I|].
  destruct (Answer.is_space c) eqn:E; [exact IH|exact E].
Qed.

Lemma lstrip_fixed s :
  match s with String c _ => Answer.is_space c = false | _ => True end ->
  Answer.lstrip s = s.
Proof. destruct s as [|c s]; [reflexivity|]. cbn. now intros ->. Qed.

Lemma rstrip_head s :
  match s with String c _ => Answer.is_space c = false | _ => True end ->
  match Answer.rstrip s with
  | String c _ => Answer.is_space c = false
  | EmptyString => True
  end.
Proof.
  destruct s as [|c s]; [exact (fun H => H)|]. cbn [Answer.rstrip].
  intros Hc. destruct (Answer.rstrip s); [now rewrite Hc|exact Hc].
Qed.

Lemma rstrip_cons c s :
  Answer.rstrip (String c s)
  = match Answer.rstrip s with
    | EmptyString =>
        if Answer.is_space c then EmptyString else String c EmptyString
    | t => String c t
    end.
Proof. reflexivity. Qed.

Lemma rstrip_twice s : Answer.rstrip (Answer.rstrip s) = Answer.rstrip s.
Proof.
  induction s as [|c s IH]; [reflexivity|]. rewrite (rstrip_cons c s).
  destruct (Answer.rstrip s) as [|d t] eqn:E.
  - destruct (Answer.is_space c) eqn:Hc; [reflexivity|].
    rewrite rstrip_cons. cbn [Answer.rstrip]. now rewrite Hc.
  - rewrite rstrip_cons, IH. reflexivity.
Qed.

(** [strip] leaves nothing for a second [strip]. *)
Lemma strip_twice s : Answer.strip (Answer.strip s) = Answer.strip s.
Proof.
  unfold Answer.strip.
  rewrite (lstrip_fixed (Answer.rstrip _)).
  - apply rstrip_twice.
  - apply rstrip_head, lstrip_head.
Qed.

(** X16. When the decoded output starts with the prompt, as a causal model's
    does, the answer printed is the completion without the whitespace
    around it; and whatever the output is, the answer printed has no
    whitespace at either end. *)
Theorem answer_of_echo question :
  (forall rest,
     Answer.answer_of question (question +:+ rest) = Answer.strip rest)
  /\ (forall response,
        Answer.strip (Answer.answer_of question response)
        = Answer.answer_of question response).
Proof.
  unfold Answer.answer_of. split.
  - intros rest. now rewrite from_app.
  - intros response. apply strip_twice.
Qed.

(** X17. An output no longer than the question gives an empty answer, not an
    error: the slice past the end is empty. *)
Theorem answer_of_short_response question response :
  String.length response <= String.length question ->
  Answer.answer_of question response = "".
Proof. intros H. unfold Answer.answer_of. now rewrite from_short. Qed.

End AnswerFacts.

Section Transcript.
Context {R : Random} {I : Inference R}.
Implicit Types w : World R.

Hypothesis load_prints_nothing :
  forall base adapter, keeps same_output (load base adapter).
Hypothesis respond_prints_nothing :
  forall m question, keeps same_output (respond m question).

Lemma ask_outcome m question w :
  match ask m question w with
  | (Ok _, w') =>
      exists response,
        stdout w' = stdout w ++ transcript [(question, response)]
  | (Raise _, w') => stdout w' = stdout w ++ [question_line question]
  end.
Proof.
  unfold ask, mbind, M_bind, bind, print. cbn [fst snd].
  match goal with |- context [respond m question ?x] => set (w0 := x) end.
  pose proof (respond_prints_nothing m question w0) as H.
  destruct (respond m question w0) as [[r|e] w1]; cbn [snd] in H;
    unfold same_output in H; rewrite H; cbn [stdout w0]; [|reflexivity].
  exists r. cbn. now rewrite <- !app_assoc.
Qed.

Lemma transcript_cons question response asked :
  transcript ((question, response) :: asked)
  = [question_line question; answer_line question response; rule]
      ++ transcript asked.
Proof. reflexivity. Qed.

Lemma ask_all_outcome m questions : forall w,
  match ask_all m questions w with
  | (Ok _, w') =>
      exists responses,
        length responses = length questions
        /\ stdout w' = stdout w ++ transcript (zip questions responses)
  | (Raise _, w') =>
      exists responses question,
        questions !! length responses = Some question
        /\ stdout w' = stdout w ++ transcript (zip questions responses)
                         ++ [question_line question]
  end.
Proof.
  induction questions as [|q qs IH]; intros w.
  - exists []. split; [reflexivity|]. cbn. now rewrite app_nil_r.
  - cbn [ask_all]. unfold mbind, M_bind, bind.
    pose proof (ask_outcome m q w) as Hq.
    destruct (ask m q w) as [[u|e] w1].
    + destruct Hq as (r & Hq). specialize (IH w1).
      destruct (ask_all m qs w1) as [[u'|e] w2].
      * destruct IH as (rs & Hlen & Hout). exists (r :: rs).
        split; [cbn; lia|]. cbn [zip zip_with].
        rewrite transcript_cons, Hout, Hq. cbn. now rewrite <- !app_assoc.
      * destruct IH as (rs & q' & Hlook & Hout). exists (r :: rs), q'.
        split; [exact Hlook|]. cbn [zip zip_with].
        rewrite transcript_cons, Hout, Hq. cbn. now rewrite <- !app_assoc.
    + exists [], q. split; [reflexivity|]. cbn. exact Hq.
Qed.

(** X18. What cell 11 prints, given that the model stack itself prints nothing:
    a run that ends normally has printed, for each of the three questions
    in order, the question, an answer and the rule, and nothing else; a
    run that raises has printed either nothing (the model did not load)
    or the complete entries of the questions answered so far followed by
    the question that got no answer. *)
Theorem cell11_output w :
  match cell11 w with
  | (Ok _, w') =>
      exists responses,
        length responses = length test_questions
        /\ stdout w' = stdout w ++ transcript (zip test_questions responses)
  | (Raise _, w') =>
      stdout w' = stdout w
      \/ exists responses question,
           test_questions !! length responses = Some question
           /\ stdout w' = stdout w
                            ++ transcript (zip test_questions responses)
                            ++ [question_line question]
  end.
Proof.
  unfold cell11, mbind, M_bind, bind.
  pose proof (load_prints_nothing base_model_name adapter_path w) as Hl.
  destruct (load base_model_name adapter_path w) as [[m|e] w0];
    cbn [snd] in Hl; unfold same_output in Hl; [|now left].
  pose proof (ask_all_outcome m test_questions w0) as H.
  destruct (ask_all m test_questions w0) as [[u|e] w1]; rewrite <- Hl.
  - exact H.
  - right. exact H.
Qed.

End Transcript.

Section Dataset.
Context {R : Random} {J : JsonCodec}.
Implicit Types w : World R.

(** X19. The dataset the merged entry names is made by neither cell: where
    [lora/../data/train/competition_train.jsonl] does not exist before
    cell 5 and cell 7, it does not exist after them, whatever their
    outcomes, so the entry cell 7 adds points at a file the notebook
    never writes. *)
Theorem merged_dataset_is_never_written w s :
  dataset_path merged_entry = Some s ->
  fs w !! dataset_file s = None ->
  fs (snd (cell7 (snd (cell5 w)))) !! dataset_file s = None.
Proof.
  intros Hs Hnone.
  assert (s = "../data/train/competition_train.jsonl") as ->
    by (vm_compute in Hs; congruence).
  change (dataset_file _) with ["data"; "train"; "competition_train.jsonl"]
    in *.
  set (q := ["data"; "train"; "competition_train.jsonl"]) in *.
  assert (Hout : same_outside split_outputs w (snd (cell5 w))).
  { apply cell5_keeps; try tc_solve.
    - apply same_outside_fs.
    - intros p Hp. apply os_mkdir_same_outside. now apply prefix_of_outputs.
    - intros x. apply write_text_same_outside. pick_path.
    - intros x. apply write_text_same_outside. pick_path. }
  assert (H5 : fs (snd (cell5 w)) !! q = None).
  { rewrite <- Hnone. apply Hout. unfold split_outputs, q.
    rewrite train_dir_eq, test_dir_eq, train_file_eq, test_file_eq.
    change (Paths.Path "data") with ["data"].
    rewrite !not_elem_of_cons.
    repeat split; try discriminate. apply not_elem_of_nil. }
  destruct (cell7_effect (snd (cell5 w))) as [-> | (text & ->)];
    [exact H5|].
  cbn [fs with_fs]. rewrite config_file_eq.
  rewrite lookup_insert_ne by discriminate. exact H5.
Qed.

End Dataset.

(** * The further properties on the example checkouts *)

Lemma outcome_split {A B : Type} (x : A * B) (a : A) :
  fst x = a -> x = (a, snd x).
Proof. intros <-. now destruct x. Defined.

Lemma ten_lines_fit :
  (Z.of_nat (length (Text.splitlines
                       (Text.universal_newlines Examples.ten_lines)))
     <= PY_SSIZE_T_MAX)%Z.
Proof. vm_compute. discriminate. Defined.


Lemma ten_lines_run :
  cell5 (Examples.with_raw Examples.ten_lines)
  = (Ok (Some (["h"; "d"; "c"; "i"; "f"; "g"; "j"; "e"], ["a"; "b"])),
     snd (cell5 (Examples.with_raw Examples.ten_lines))).
Proof. apply outcome_split. vm_compute. reflexivity. Defined.

(** Cell 5 on the ten lines does not touch the configuration file. *)
Lemma cell5_touches_only_outputs_witness :
  let w := Examples.with_raw Examples.ten_lines in
  (config_file ∉ split_outputs)
  /\ fs (snd (cell5 w)) !! config_file = fs w !! config_file.
Proof.
  intros w.
  assert (H : config_file ∉ split_outputs).
  { unfold split_outputs.
    rewrite config_file_eq, train_dir_eq, test_dir_eq, train_file_eq,
      test_file_eq.
    change (Paths.Path "data") with ["data"].
    rewrite !not_elem_of_cons. repeat split; try discriminate.
    apply not_elem_of_nil. }
  split; [exact H|]. exact (cell5_touches_only_outputs w config_file H).
Defined.

(** The raw file is still there after cell 5. *)
Lemma cell5_loses_nothing_witness :
  let w := Examples.with_raw Examples.ten_lines in
  fs w !! raw_file = Some (File Examples.ten_lines)
  /\ fs (snd (cell5 w)) !! raw_file = Some (File Examples.ten_lines).
Proof.
  intros w.
  assert (H1 : raw_file <> train_file) by (vm_compute; discriminate).
  assert (H2 : raw_file <> test_file) by (vm_compute; discriminate).
  assert (H3 : fs w !! raw_file = Some (File Examples.ten_lines))
    by (vm_compute; reflexivity).
  split; [exact H3|].
  exact (cell5_loses_nothing w raw_file (File Examples.ten_lines) H1 H2 H3).
Defined.


(** A directory at the place of the raw file. *)
Lemma cell5_raw_is_a_directory_witness :
  let w := Checkout.raw_is_a_directory in
  fs w !! raw_file = Some Dir
  /\ cell5 w = (Raise IsADirectoryError, w).
Proof.
  intros w.
  assert (H : fs w !! raw_file = Some Dir) by (vm_compute; reflexivity).
  split; [exact H|]. exact (cell5_raw_is_a_directory w H).
Defined.

(** A regular file at the place of the train directory. *)
Lemma cell5_train_dir_is_a_file_witness :
  let w := Checkout.train_dir_is_a_file in
  fs w !! train_dir = Some (File "not a directory")
  /\ exists g, cell5 w = (Raise FileExistsError, with_rng g w).
Proof.
  intros w.
  assert (H1 : fs w !! raw_file = Some (File Examples.ten_lines))
    by (vm_compute; reflexivity).
  assert (H2 : fs w !! Paths.Path "data" = Some Dir)
    by (vm_compute; reflexivity).
  assert (H3 : fs w !! train_dir = Some (File "not a directory"))
    by (vm_compute; reflexivity).
  split; [exact H3|].
  exact (cell5_train_dir_is_a_file w _ _ H1 H2 H3 ten_lines_fit).
Defined.

(** A directory at the place of the test file. *)
Lemma cell5_fails_half_way_witness :
  let w := Checkout.test_file_is_a_directory in
  fs w !! test_file = Some Dir
  /\ exists train_lines w',
       cell5 w = (Raise IsADirectoryError, w')
       /\ fs w' !! train_file = Some (File (dump_lines train_lines))
       /\ fs w' !! train_dir = Some Dir
       /\ fs w' !! test_dir = Some Dir
       /\ fs w' !! test_file = Some Dir
       /\ stdout w' = stdout w.
Proof.
  intros w.
  assert (H1 : fs w !! raw_file = Some (File Examples.ten_lines))
    by (vm_compute; reflexivity).
  assert (H2 : fs w !! Paths.Path "data" = Some Dir)
    by (vm_compute; reflexivity).
  assert (H3 : fs w !! train_dir = None \/ fs w !! train_dir = Some Dir)
    by (left; vm_compute; reflexivity).
  assert (H4 : fs w !! test_dir = None \/ fs w !! test_dir = Some Dir)
    by (right; vm_compute; reflexivity).
  assert (H5 : fs w !! train_file <> Some Dir) by (vm_compute; discriminate).
  assert (H6 : fs w !! test_file = Some Dir) by (vm_compute; reflexivity).
  split; [exact H6|].
  exact (cell5_fails_half_way w _ H1 H2 H3 H4 H5 H6 ten_lines_fit).
Defined.

(** Making [data/train] twice in the checkout that has the raw file. *)
Lemma mkdir_twice_witness :
  let w := Examples.with_raw Examples.ten_lines in
  let w1 := snd (mkdir true true train_dir w) in
  mkdir true true train_dir w = (Ok (), w1)
  /\ node_at w1 train_dir = Some Dir
  /\ mkdir true true train_dir w1 = (Ok (), w1).
Proof.
  intros w w1.
  assert (H : mkdir true true train_dir w = (Ok (), w1))
    by (apply outcome_split; vm_compute; reflexivity).
  split; [exact H|]. exact (mkdir_twice train_dir w w1 H).
Defined.

(** Cell 5 twice on the ten lines. *)
Lemma cell5_again_witness :
  let w := Examples.with_raw Examples.ten_lines in
  exists split w1 w2,
    cell5 w = (Ok (Some split), w1)
    /\ cell5 w1 = (Ok (Some split), w2)
    /\ fs w2 = fs w1 /\ rng w2 = rng w1.
Proof.
  intros w.
  assert (H1 : fs w !! raw_file = Some (File Examples.ten_lines))
    by (vm_compute; reflexivity).
  exact (cell5_again w Examples.ten_lines H1 ten_lines_writable ten_lines_fit).
Defined.


(** The files after cell 5 on the ten lines. *)
Lemma cell5_writes_what_it_binds_witness :
  let w := Examples.with_raw Examples.ten_lines in
  let a := ["h"; "d"; "c"; "i"; "f"; "g"; "j"; "e"] in
  let b := ["a"; "b"] in
  let w1 := snd (cell5 w) in
  cell5 w = (Ok (Some (a, b)), w1)
  /\ is_dir w1 train_dir = true /\ is_dir w1 test_dir = true
  /\ fs w1 !! train_file = Some (File (dump_lines a))
  /\ fs w1 !! test_file = Some (File (dump_lines b))
  /\ exists c, fs w !! raw_file = Some (File c)
       /\ a ++ b ≡ₚ Text.splitlines (Text.universal_newlines c).
Proof.
  intros w a b w1. split; [exact ten_lines_run|].
  exact (cell5_writes_what_it_binds w a b w1 ten_lines_run).
Defined.

(** The two files of the ten lines, read back. *)
Lemma cell5_outputs_read_back_witness :
  let w := Examples.with_raw Examples.ten_lines in
  let a := ["h"; "d"; "c"; "i"; "f"; "g"; "j"; "e"] in
  let b := ["a"; "b"] in
  let w1 := snd (cell5 w) in
  cell5 w = (Ok (Some (a, b)), w1)
  /\ read_lines train_file w1 = (Ok a, w1)
  /\ read_lines test_file w1 = (Ok b, w1).
Proof.
  intros w a b w1. split; [exact ten_lines_run|].
  exact (cell5_outputs_read_back w a b w1 ten_lines_run).
Defined.

(** Two lines with a Windows line end. *)
Lemma read_lines_any_newline_witness :
  let w := Examples.with_raw Checkout.windows_lines in
  fs w !! raw_file = Some (File Checkout.windows_lines)
  /\ read_lines raw_file w = (Ok ["a"; "b"], w).
Proof.
  intros w.
  assert (H1 : raw_file <> []) by (vm_compute; discriminate).
  assert (H2 : fs w !! raw_file = Some (File Checkout.windows_lines))
    by (vm_compute; reflexivity).
  split; [exact H2|].
  exact (read_lines_any_newline raw_file Checkout.windows_lines w H1 H2).
Defined.

(** A record with a form feed in it is read as two lines. *)
Lemma record_with_boundary_is_cut_witness :
  let w := Examples.with_raw Checkout.cut_record in
  fs w !! raw_file = Some (File Checkout.cut_record)
  /\ read_lines raw_file w = (Ok ["first half"; "second half"], w).
Proof.
  intros w.
  assert (H1 : raw_file <> []) by (vm_compute; discriminate).
  assert (H2 : one_line "first half" = true) by reflexivity.
  assert (H3 : one_line "second half" = true) by reflexivity.
  assert (H4 : "second half" <> "") by discriminate.
  assert (H5 : Text.is_linebreak Checkout.form_feed = true) by reflexivity.
  assert (H6 : fs w !! raw_file
               = Some (File ("first half"
                             +:+ String Checkout.form_feed "second half"
                             +:+ Text.newline)))
    by (vm_compute; reflexivity).
  split; [vm_compute; reflexivity|].
  exact (record_with_boundary_is_cut raw_file w "first half" "second half"
           Checkout.form_feed H1 H2 H3 H4 H5 H6).
Defined.

(** An output that stops inside the question. *)
Lemma answer_of_short_response_witness :
  String.length "How" <= String.length "How do you"
  /\ Answer.answer_of "How do you" "How" = "".
Proof.
  assert (H : String.length "How" <= String.length "How do you")
    by (vm_compute; lia).
  split; [exact H|]. exact (answer_of_short_response "How do you" "How" H).
Defined.

(** The stand-in strips its completion to the same answer each time. *)
Example echo_answers :
  map (fun q => Answer.answer_of q (q +:+ Echo.completion)) test_questions
  = ["It depends."; "It depends."; "It depends."].
Proof. vm_compute. reflexivity. Qed.

Lemma echo_prints_nothing :
  (forall base adapter,
     keeps same_output (load (Inference := Echo.inference) base adapter))
  /\ (forall m question,
        keeps same_output (respond (Inference := Echo.inference) m question)).
Proof. split; intros ? ? w; reflexivity. Defined.

(** Cell 11 with the echoing stand-in, from an empty output. *)
Lemma cell11_output_witness :
  let w := Examples.with_raw Examples.ten_lines in
  match cell11 (I := Echo.inference) w with
  | (Ok _, w') =>
      exists responses,
        length responses = length test_questions
        /\ stdout w' = stdout w ++ transcript (zip test_questions responses)
  | (Raise _, w') =>
      stdout w' = stdout w
      \/ exists responses question,
           test_questions !! length responses = Some question
           /\ stdout w' = stdout w
                            ++ transcript (zip test_questions responses)
                            ++ [question_line question]
  end.
Proof.
  intros w.
  exact (cell11_output (I := Echo.inference)
           (proj1 echo_prints_nothing) (proj2 echo_prints_nothing) w).
Defined.

(** After both cells on the ten lines, the dataset of the merged entry is still missing. *)
Lemma merged_dataset_is_never_written_witness :
  let w := Examples.with_raw Examples.ten_lines in
  let s := "../data/train/competition_train.jsonl" in
  dataset_path merged_entry = Some s
  /\ fs w !! dataset_file s = None
  /\ fs (snd (cell7 (J := mini_json) (snd (cell5 w)))) !! dataset_file s
     = None.
Proof.
  intros w s.
  assert (H1 : dataset_path merged_entry = Some s) by reflexivity.
  assert (H2 : fs w !! dataset_file s = None) by (vm_compute; reflexivity).
  split; [exact H1|]. split; [exact H2|].
  exact (merged_dataset_is_never_written (J := mini_json) w s H1 H2).
Defined.
